(** * Front-matter settings codec of the Number Headings plugin

    A shallow embedding of [src/frontMatter.ts]: the decoder of the compact
    [number headings] settings string, the legacy per-key decoder, the
    encoder, and the splice of the encoded line into a document.

    The model and its boundaries:
    - JavaScript strings are [string]; a character stands for one UTF-16
      code unit in the range U+0000..U+00FF.
    - JavaScript numbers are [number]: NaN or an integer, which is all the
      decoder builds.  [parseInt] and the conversion of a number to a
      string are exact on integers; fractional numbers, negative zero and
      the rounding of integers beyond 2^53 are outside the model.
    - [settingsTypes.ts] is not among the sources: the default record and
      the validity predicates it exports are the fields of the class
      [SettingsTypes], and every property is stated for all of its
      implementations, under the hypotheses it lists.
    - The host application (metadata lookup, editor) is described after the
      specification of the module. *)

From Stdlib Require Import ZArith Ascii String List Bool Lia.
From stdpp Require Import base option list gmap strings.

Set Warnings "-register-all".

#[local] Arguments String.append !_ _ : simpl nomatch.

Local Open Scope string_scope.
Local Open Scope Z_scope.

(** ** JavaScript primitives used by the module *)

Module Js.


(** A JavaScript number: NaN or an integer value. *)
Inductive number : Type :=
| NaN
| Num (z : Z).

(** A JavaScript value as a YAML front-matter entry can hold it. *)
Inductive value : Type :=
| VUndefined
| VNull
| VBool (b : bool)
| VNum (n : number)
| VStr (s : string)
| VArr (l : list value)
| VObj.

(** [if (v)]: the falsy values are undefined, null, false, 0, NaN and
    the empty string. *)
Definition truthy (v : value) : bool :=
  match v with
  | VUndefined | VNull => false
  | VBool b => b
  | VNum NaN => false
  | VNum (Num z) => negb (z =? 0)
  | VStr s => negb (String.eqb s "")
  | VArr _ | VObj => true
  end.

(** [a ?? b]. *)
Definition nullish (a b : value) : value :=
  match a with
  | VUndefined | VNull => b
  | _ => a
  end.

(** Decimal digits of a non-negative integer, most significant first,
    pushed in front of [acc]. *)
Fixpoint digits_acc (fuel : nat) (n : Z) (acc : string) : string :=
  match fuel with
  | O => acc
  | S fuel' =>
      let acc' := String (ascii_of_N (Z.to_N (48 + n mod 10))) acc in
      if n <? 10 then acc' else digits_acc fuel' (n / 10) acc'
  end.

Definition digits (n : Z) : string :=
  digits_acc (S (Z.to_nat (Z.log2 n))) n "".

(** Number-to-string conversion, as a template literal performs it. *)
Definition number_to_string (n : number) : string :=
  match n with
  | NaN => "NaN"
  | Num z => if z <? 0 then String "-" (digits (- z)) else digits z
  end.

(** [s.startsWith(search)]. *)
Definition startsWith (s search : string) : bool := String.prefix search s.

(** [s.substring(start)]. *)
Fixpoint substring_from (start : nat) (s : string) : string :=
  match start, s with
  | O, _ => s
  | S n, String _ s' => substring_from n s'
  | S _, EmptyString => EmptyString
  end.

(** [s.substring(0, stop)]. *)
Fixpoint substring_to (stop : nat) (s : string) : string :=
  match stop, s with
  | S n, String c s' => String c (substring_to n s')
  | _, _ => EmptyString
  end.

(** White space and line terminators below U+0100, as [trim] and
    [parseInt] strip them. *)
Definition is_white_space (c : ascii) : bool :=
  match N_of_ascii c with
  | 9 | 10 | 11 | 12 | 13 | 32 | 160 => true
  | _ => false
  end%N.

Fixpoint trimStart (s : string) : string :=
  match s with
  | String c s' => if is_white_space c then trimStart s' else s
  | EmptyString => EmptyString
  end.

Fixpoint trimEnd (s : string) : string :=
  match s with
  | String c s' =>
      match trimEnd s' with
      | EmptyString => if is_white_space c then EmptyString else String c EmptyString
      | t => String c t
      end
  | EmptyString => EmptyString
  end.

(** [s.trim()]. *)
Definition trim (s : string) : string := trimEnd (trimStart s).

(** [s.split(sep)] for a separator of one character. *)
Fixpoint split (sep : ascii) (s : string) : list string :=
  match s with
  | String c s' =>
      if Ascii.eqb c sep then EmptyString :: split sep s'
      else match split sep s' with
           | h :: t => String c h :: t
           | [] => [String c EmptyString]
           end
  | EmptyString => [EmptyString]
  end.

(** [a.join(sep)]. *)
Fixpoint join (sep : string) (l : list string) : string :=
  match l with
  | [] => EmptyString
  | [x] => x
  | x :: t => x ++ sep ++ join sep t
  end.

(** [s[i]]: the string of the one character at index [i], if any. *)
Definition char_at (s : string) (i : nat) : option string :=
  match String.get i s with
  | Some c => Some (String c EmptyString)
  | None => None
  end.

(** Value of a character as a digit in the given radix. *)
Definition digit_value (radix : Z) (c : ascii) : option Z :=
  let n := Z.of_N (N_of_ascii c) in
  let d := if (48 <=? n) && (n <=? 57) then Some (n - 48)
           else if (97 <=? n) && (n <=? 122) then Some (n - 87)
           else if (65 <=? n) && (n <=? 90) then Some (n - 55)
           else None in
  match d with
  | Some v => if v <? radix then Some v else None
  | None => None
  end.

Fixpoint parse_digits (radix acc : Z) (s : string) : Z :=
  match s with
  | String c s' =>
      match digit_value radix c with
      | Some d => parse_digits radix (acc * radix + d) s'
      | None => acc
      end
  | EmptyString => acc
  end.

Definition starts_with_digit (radix : Z) (s : string) : bool :=
  match s with
  | String c _ => match digit_value radix c with Some _ => true | None => false end
  | EmptyString => false
  end.

(** [parseInt(s)] without a radix: leading white space is skipped, a sign
    is read, a [0x]/[0X] prefix selects radix 16, and the longest prefix
    of digits is the value; NaN when there is no digit. *)
Definition parseInt (s : string) : number :=
  let s1 := trimStart s in
  let '(sign, s2) :=
    match s1 with
    | String "-" r => (-1, r)
    | String "+" r => (1, r)
    | _ => (1, s1)
    end in
  let '(radix, s3) :=
    match s2 with
    | String "0" (String "x" r) => (16, r)
    | String "0" (String "X" r) => (16, r)
    | _ => (10, s2)
    end in
  if starts_with_digit radix s3 then Num (sign * parse_digits radix 0 s3) else NaN.

(** [String(v)]. *)
Fixpoint to_string (v : value) : string :=
  match v with
  | VUndefined => "undefined"
  | VNull => "null"
  | VBool true => "true"
  | VBool false => "false"
  | VNum n => number_to_string n
  | VStr s => s
  | VArr l =>
      join ","
        (map (fun x => match x with
                       | VUndefined | VNull => EmptyString
                       | _ => to_string x
                       end) l)
  | VObj => "[object Object]"
  end.

End Js.


Import Js.

(** ** The settings record and the interface of [settingsTypes.ts] *)

Record NumberHeadingsPluginSettings : Type := mkSettings {
  skipTopLevel : bool;
  firstLevel : number;
  maxLevel : number;
  styleLevel1 : string;
  styleLevelOther : string;
  auto : bool;
  separator : string;
  contents : string
}.

Definition with_skipTopLevel (b : bool) (s : NumberHeadingsPluginSettings) :=
  mkSettings b (firstLevel s) (maxLevel s) (styleLevel1 s) (styleLevelOther s)
    (auto s) (separator s) (contents s).

Definition with_firstLevel (n : number) (s : NumberHeadingsPluginSettings) :=
  mkSettings (skipTopLevel s) n (maxLevel s) (styleLevel1 s) (styleLevelOther s)
    (auto s) (separator s) (contents s).

Definition with_maxLevel (n : number) (s : NumberHeadingsPluginSettings) :=
  mkSettings (skipTopLevel s) (firstLevel s) n (styleLevel1 s) (styleLevelOther s)
    (auto s) (separator s) (contents s).

Definition with_styleLevel1 (x : string) (s : NumberHeadingsPluginSettings) :=
  mkSettings (skipTopLevel s) (firstLevel s) (maxLevel s) x (styleLevelOther s)
    (auto s) (separator s) (contents s).

Definition with_styleLevelOther (x : string) (s : NumberHeadingsPluginSettings) :=
  mkSettings (skipTopLevel s) (firstLevel s) (maxLevel s) (styleLevel1 s) x
    (auto s) (separator s) (contents s).

Definition with_auto (b : bool) (s : NumberHeadingsPluginSettings) :=
  mkSettings (skipTopLevel s) (firstLevel s) (maxLevel s) (styleLevel1 s)
    (styleLevelOther s) b (separator s) (contents s).

Definition with_separator (x : string) (s : NumberHeadingsPluginSettings) :=
  mkSettings (skipTopLevel s) (firstLevel s) (maxLevel s) (styleLevel1 s)
    (styleLevelOther s) (auto s) x (contents s).

Definition with_contents (x : string) (s : NumberHeadingsPluginSettings) :=
  mkSettings (skipTopLevel s) (firstLevel s) (maxLevel s) (styleLevel1 s)
    (styleLevelOther s) (auto s) (separator s) x.

(** The default record and the validity predicates are imported from
    [settingsTypes.ts]; the codec is written against this interface.
    The legacy decoder stores an entry that [isValidFlag] accepts in a
    boolean field and one that [isValidFirstOrMaxLevel] accepts in a number
    field: the two laws say that what they accept has that type. *)
Class SettingsTypes : Type := {
  DEFAULT_SETTINGS : NumberHeadingsPluginSettings;
  isValidContents : string -> bool;
  isValidFirstOrMaxLevel : value -> bool;
  isValidFlag : value -> bool;
  isValidLevelStyle : string -> bool;
  isValidSeparator : string -> bool;
  isValidFlag_guard : forall v, isValidFlag v = true -> exists b, v = VBool b;
  isValidFirstOrMaxLevel_guard :
    forall v, isValidFirstOrMaxLevel v = true -> exists n, v = VNum n
}.

(** An entry accepted by [isValidFlag], as the boolean it is. *)
Definition as_boolean (v : value) : bool :=
  match v with VBool b => b | _ => false end.

(** An entry accepted by [isValidFirstOrMaxLevel], as the number it is. *)
Definition as_number (v : value) : number :=
  match v with VNum n => n | _ => NaN end.

(** ** Metadata of the host *)

(** The parsed front matter: the line its block starts at and its
    entries. *)
Record FrontMatterCache : Type := {
  position_start_line : nat;
  entries : gmap string value
}.

Record CachedMetadata : Type := {
  frontmatter : option FrontMatterCache
}.

(** Modelled from the spec: the host's metadata lookup
    [parseFrontMatterEntry], which returns the raw value of the named entry
    or null when the entry is absent. *)
Definition parseFrontMatterEntry (fm : FrontMatterCache) (key : string) : value :=
  match entries fm !! key with
  | Some v => v
  | None => VNull
  end.

(** [fm[key]]: a property read, undefined for a missing property. *)
Definition property (fm : FrontMatterCache) (key : string) : value :=
  match entries fm !! key with
  | Some v => v
  | None => VUndefined
  end.

Definition is_undefined (v : value) : bool :=
  match v with VUndefined => true | _ => false end.

Definition AUTO_PART_KEY : string := "auto".
Definition FIRST_LEVEL_PART_KEY : string := "first-level".
Definition MAX_LEVEL_PART_KEY : string := "max".
Definition CONTENTS_PART_KEY : string := "contents".

(** ** The decoder and the encoder *)

Section Codec.

Context `{ST : SettingsTypes}.

(** The formatting branch of the loop body (source lines 45-69). *)
Definition parseFormattingPart (settings : NumberHeadingsPluginSettings)
    (cleanPart : string) : NumberHeadingsPluginSettings :=
  let lastChar := char_at cleanPart (String.length cleanPart - 1) in
  let '(settings, remainingPart) :=
    match lastChar with
    | Some c =>
        if isValidSeparator c
        then (with_separator c settings,
              substring_to (String.length cleanPart - 1) cleanPart)
        else (settings, cleanPart)
    | None => (settings, cleanPart)
    end in
  let descriptors := split "." remainingPart in
  let '(settings, firstNumberedDescriptor) :=
    if (1 <? length descriptors)%nat && String.eqb (default "" (descriptors !! 0%nat)) "_"
    then (with_skipTopLevel true settings, 1%nat)
    else (with_skipTopLevel false settings, 0%nat) in
  if (2 <=? length descriptors - firstNumberedDescriptor)%nat then
    let styleLevel1 := default "" (descriptors !! firstNumberedDescriptor) in
    let settings :=
      if isValidLevelStyle styleLevel1 then with_styleLevel1 styleLevel1 settings
      else settings in
    let styleLevelOther := default "" (descriptors !! (firstNumberedDescriptor + 1)%nat) in
    if isValidLevelStyle styleLevelOther then with_styleLevelOther styleLevelOther settings
    else settings
  else settings.

(** The loop body on a trimmed, non-empty part (source lines 20-70). *)
Definition parseCleanPart (settings : NumberHeadingsPluginSettings)
    (cleanPart : string) : NumberHeadingsPluginSettings :=
  if String.eqb cleanPart AUTO_PART_KEY then
    with_auto true settings
  else if startsWith cleanPart FIRST_LEVEL_PART_KEY then
    let nstring := substring_from (String.length FIRST_LEVEL_PART_KEY + 1) cleanPart in
    let n := parseInt nstring in
    if isValidFirstOrMaxLevel (VNum n) then with_firstLevel n settings else settings
  else if startsWith cleanPart MAX_LEVEL_PART_KEY then
    let nstring := substring_from (String.length MAX_LEVEL_PART_KEY + 1) cleanPart in
    let n := parseInt nstring in
    if isValidFirstOrMaxLevel (VNum n) then with_maxLevel n settings else settings
  else if startsWith cleanPart CONTENTS_PART_KEY then
    if (String.length cleanPart <=? String.length CONTENTS_PART_KEY + 1)%nat then settings
    else
      let tocHeading := substring_from (String.length CONTENTS_PART_KEY + 1) cleanPart in
      if isValidContents tocHeading then with_contents tocHeading settings else settings
  else parseFormattingPart settings cleanPart.

(** One iteration of the loop over the parts (source lines 16-71). *)
Definition parsePart (settings : NumberHeadingsPluginSettings)
    (part : string) : NumberHeadingsPluginSettings :=
  let cleanPart := trim part in
  if (String.length cleanPart =? 0)%nat then settings
  else parseCleanPart settings cleanPart.

(** The loop over the parts of the entry string, from the defaults. *)
Definition parseCompactString (entryString : string) : NumberHeadingsPluginSettings :=
  fold_left parsePart (split "," entryString) DEFAULT_SETTINGS.

Definition parseCompactFrontMatterSettings (fm : FrontMatterCache)
    : option NumberHeadingsPluginSettings :=
  let entry := parseFrontMatterEntry fm "number headings" in
  if truthy entry then Some (parseCompactString (to_string entry))
  else None.

(** The backwards-compatibility part of
    [getFrontMatterSettingsOrAlternative] (source lines 89-110). *)
Definition legacyFrontMatterSettings (fm : FrontMatterCache)
    (alternativeSettings : NumberHeadingsPluginSettings) : NumberHeadingsPluginSettings :=
  let skipTopLevelEntry :=
    nullish (parseFrontMatterEntry fm "number-headings-skip-top-level")
            (parseFrontMatterEntry fm "header-numbering-skip-top-level") in
  let skipTopLevel' :=
    if isValidFlag skipTopLevelEntry then as_boolean skipTopLevelEntry
    else skipTopLevel alternativeSettings in
  let maxLevelEntry :=
    nullish (parseFrontMatterEntry fm "number-headings-max-level")
            (parseFrontMatterEntry fm "header-numbering-max-level") in
  let maxLevel' :=
    if isValidFirstOrMaxLevel maxLevelEntry then as_number maxLevelEntry
    else maxLevel alternativeSettings in
  let styleLevel1Entry :=
    to_string (nullish (parseFrontMatterEntry fm "number-headings-style-level-1")
                       (parseFrontMatterEntry fm "header-numbering-style-level-1")) in
  let styleLevel1' :=
    if isValidLevelStyle styleLevel1Entry then styleLevel1Entry
    else styleLevel1 alternativeSettings in
  let styleLevelOtherEntry :=
    to_string (nullish (parseFrontMatterEntry fm "number-headings-style-level-other")
                       (parseFrontMatterEntry fm "header-numbering-style-level-other")) in
  let styleLevelOther' :=
    if isValidLevelStyle styleLevelOtherEntry then styleLevelOtherEntry
    else styleLevelOther alternativeSettings in
  let autoEntry :=
    nullish (parseFrontMatterEntry fm "number-headings-auto")
            (parseFrontMatterEntry fm "header-numbering-auto") in
  let auto' :=
    if isValidFlag autoEntry then as_boolean autoEntry
    else auto alternativeSettings in
  with_auto auto'
    (with_styleLevelOther styleLevelOther'
       (with_styleLevel1 styleLevel1'
          (with_maxLevel maxLevel'
             (with_skipTopLevel skipTopLevel' DEFAULT_SETTINGS)))).

Definition getFrontMatterSettingsOrAlternative (md : CachedMetadata)
    (alternativeSettings : NumberHeadingsPluginSettings) : NumberHeadingsPluginSettings :=
  match frontmatter md with
  | Some fm =>
      match parseCompactFrontMatterSettings fm with
      | Some decompactedSettings => decompactedSettings
      | None => legacyFrontMatterSettings fm alternativeSettings
      end
  | None => alternativeSettings
  end.

End Codec.

Definition settingsToCompactFrontMatterValue (settings : NumberHeadingsPluginSettings)
    : string :=
  let autoPart := if auto settings then "auto, " else "" in
  let firstLevelPart := "first-level " ++ number_to_string (firstLevel settings) ++ ", " in
  let maxPart := "max " ++ number_to_string (maxLevel settings) ++ ", " in
  let contentsPart :=
    if negb (String.eqb (contents settings) "")
       && (0 <? String.length (contents settings))%nat
    then "contents " ++ contents settings ++ ", " else "" in
  let skipTopLevelString := if skipTopLevel settings then "_." else "" in
  let stylePart :=
    skipTopLevelString ++ styleLevel1 settings ++ "." ++ styleLevelOther settings
      ++ separator settings in
  autoPart ++ firstLevelPart ++ maxPart ++ contentsPart ++ stylePart.

(** ** The editor of the host *)

Module Editor.

Record EditorPosition : Type := {
  line : nat;
  ch : nat
}.

Definition newline : ascii := "010"%char.

(** Modelled from the spec: the host's line-addressable document.  The
    editor holds the text of the document; its lines are the pieces of the
    text between line feeds. *)
Record Editor : Type := {
  getValue : string
}.

Definition lines (editor : Editor) : list string := split newline (getValue editor).

(** Modelled from the spec: [editor.lastLine()], the index of the last
    line. *)
Definition lastLine (editor : Editor) : nat := (length (lines editor) - 1)%nat.

(** Modelled from the spec: [editor.getLine(i)], the text of line [i]. *)
Definition getLine (editor : Editor) (i : nat) : string :=
  default "" (lines editor !! i).

(** Modelled from the spec: the offset in the text of a position; a
    position past the end of its line or of the document is clipped to
    that end. *)
Fixpoint posToOffset (text : string) (l c : nat) : nat :=
  match text with
  | EmptyString => 0%nat
  | String x text' =>
      match l with
      | S l' =>
          S (if Ascii.eqb x newline then posToOffset text' l' c
             else posToOffset text' l c)
      | O =>
          match c with
          | O => 0%nat
          | S c' => if Ascii.eqb x newline then 0%nat else S (posToOffset text' 0%nat c')
          end
      end
  end.

(** Modelled from the spec: [editor.replaceRange(replacement, from, to)],
    which replaces the text between two positions. *)
Definition replaceRange (replacement : string) (from to : EditorPosition)
    (editor : Editor) : Editor :=
  let text := getValue editor in
  {| getValue :=
       substring_to (posToOffset text (line from) (ch from)) text
         ++ replacement
         ++ substring_from (posToOffset text (line to) (ch to)) text |}.

(** Outcome of a statement: normal completion or a thrown [Error]. *)
Inductive completion (A : Type) : Type :=
| Normal (a : A)
| Throw (message : string).

Arguments Normal {A} a.
Arguments Throw {A} message.

(** Computations over the editor that may throw. *)
Definition M (A : Type) : Type := Editor -> completion A * Editor.

Definition ret {A} (a : A) : M A := fun editor => (Normal a, editor).

Definition bind {A B} (m : M A) (k : A -> M B) : M B :=
  fun editor =>
    match m editor with
    | (Normal a, editor') => k a editor'
    | (Throw message, editor') => (Throw message, editor')
    end.

Definition throw {A} (message : string) : M A := fun editor => (Throw message, editor).

Definition read {A} (f : Editor -> A) : M A := fun editor => (Normal (f editor), editor).

Definition edit (f : Editor -> Editor) : M unit := fun editor => (Normal tt, f editor).

End Editor.

Import Editor.

Notation "x <- m ;; k" := (bind m (fun x => k))
  (at level 100, m at next level, right associativity).

(** The loop of [findLineWhichStartsWith]: [count] iterations from line
    [i]. *)
Fixpoint findLineLoop (editor : Editor) (search : string) (i count : nat) : option nat :=
  match count with
  | O => None
  | S count' =>
      let lineString := getLine editor i in
      if startsWith lineString search then Some i
      else findLineLoop editor search (S i) count'
  end.

(** [for (let i = afterLine; i < editor.lastLine(); i++)]: the loop runs
    [lastLine - afterLine] times. *)
Definition findLineWhichStartsWith (editor : Editor) (search : string)
    (afterLine : nat) : option nat :=
  findLineLoop editor search afterLine (lastLine editor - afterLine)%nat.

Definition double_quote : ascii := "034"%char.

Definition key_not_found_message : string :=
  "Number Headings Plugin: " ++ String double_quote "number headings"
    ++ String double_quote " key exists but not found.".

Definition saveSettingsToFrontMatter (md : CachedMetadata)
    (settings : NumberHeadingsPluginSettings) : M unit :=
  match frontmatter md with
  | Some fm =>
      let frontMatterLine := position_start_line fm in
      let v := settingsToCompactFrontMatterValue settings in
      let frontMatterAdditions := "number headings: " ++ v ++ String newline "" in
      if negb (is_undefined (property fm "number headings")) then
        keyLine <- read (fun editor =>
                     findLineWhichStartsWith editor "number headings" frontMatterLine) ;;
        match keyLine with
        | None => throw key_not_found_message
        | Some keyLine =>
            let from := {| line := keyLine; ch := 0 |} in
            let to := {| line := keyLine + 1; ch := 0 |} in
            edit (replaceRange frontMatterAdditions from to)
        end
      else
        let from := {| line := frontMatterLine + 1; ch := 0 |} in
        let to := {| line := frontMatterLine + 1; ch := 0 |} in
        edit (replaceRange frontMatterAdditions from to)
  | None =>
      let v := settingsToCompactFrontMatterValue settings in
      let newFrontMatter :=
        "---" ++ String newline "" ++ "number headings: " ++ v ++ String newline ""
          ++ "---" ++ String newline (String newline "") in
      let from := {| line := 0; ch := 0 |} in
      let to := {| line := 0; ch := 0 |} in
      edit (replaceRange newFrontMatter from to)
  end.

(** ** A sample implementation of the [settingsTypes.ts] interface

    An implementation to evaluate the codec with: levels from 1 to 6,
    the level styles [1] and [A], the separators [:], [.], [-] and [)],
    any heading as contents.  It accepts what the example of the
    specification needs accepted. *)

Module Sample.

Definition isValidFlag (v : value) : bool :=
  match v with VBool _ => true | _ => false end.

Definition isValidFirstOrMaxLevel (v : value) : bool :=
  match v with
  | VNum (Num z) => (1 <=? z) && (z <=? 6)
  | _ => false
  end.

Definition isValidLevelStyle (s : string) : bool :=
  String.eqb s "A" || String.eqb s "1".

Definition isValidSeparator (s : string) : bool :=
  String.eqb s "" || String.eqb s ":" || String.eqb s "." || String.eqb s "-"
  || String.eqb s ")".

Definition isValidContents (s : string) : bool := true.

Definition DEFAULT_SETTINGS : NumberHeadingsPluginSettings :=
  {| skipTopLevel := false;
     firstLevel := Num 1;
     maxLevel := Num 6;
     styleLevel1 := "1";
     styleLevelOther := "1";
     auto := false;
     separator := "";
     contents := "" |}.

Definition settings_types : SettingsTypes :=
  Build_SettingsTypes DEFAULT_SETTINGS isValidContents isValidFirstOrMaxLevel
    isValidFlag isValidLevelStyle isValidSeparator
    ltac:(intros v H; destruct v; try discriminate H; eauto)
    ltac:(intros v H; destruct v; try discriminate H; eauto).

End Sample.

(** ** Predicates on strings used to state the properties *)

(** The character of a decimal digit. *)
Definition digit_char (k : Z) : ascii := ascii_of_N (Z.to_N (48 + k)).


(** Every character of the string satisfies [P]. *)
Fixpoint str_forall (P : ascii -> bool) (s : string) : bool :=
  match s with
  | String c s' => P c && str_forall P s'
  | EmptyString => true
  end.

(** The last character of a string. *)
Fixpoint last_char (s : string) : option ascii :=
  match s with
  | String c EmptyString => Some c
  | String _ s' => last_char s'
  | EmptyString => None
  end.

Definition is_not (c : ascii) : ascii -> bool := fun x => negb (Ascii.eqb x c).

Definition is_decimal_digit (c : ascii) : bool :=
  match digit_value 10 c with Some _ => true | None => false end.

(** A character that may stand inside a part without being split off or
    trimmed away. *)
Definition is_plain (c : ascii) : bool :=
  negb (is_white_space c) && is_not "," c && is_not "." c.

Section CodecPredicates.

Context `{ST : SettingsTypes}.

(** The [_.] prefix of the encoded formatting part. *)
Definition skip_marker (skip : bool) : string := if skip then "_." else "".

(** The branch of the loop body that a trimmed part takes. *)
Inductive part_kind : Type :=
| EmptyPart
| AutoPart
| FirstLevelPart
| MaxLevelPart
| ContentsPart
| FormattingPart.

Definition classify (cleanPart : string) : part_kind :=
  if (String.length cleanPart =? 0)%nat then EmptyPart
  else if String.eqb cleanPart AUTO_PART_KEY then AutoPart
  else if startsWith cleanPart FIRST_LEVEL_PART_KEY then FirstLevelPart
  else if startsWith cleanPart MAX_LEVEL_PART_KEY then MaxLevelPart
  else if startsWith cleanPart CONTENTS_PART_KEY then ContentsPart
  else FormattingPart.

(** The formatting descriptor as the specification words its grammar:
    [[_.]STYLE1.STYLE2SEP] with valid styles and, when present, a valid
    separator character. *)
Definition spec_formatting_descriptor (part : string) : Prop :=
  exists (skip : bool) (s1 s2 sep : string),
    part = skip_marker skip ++ s1 ++ "." ++ s2 ++ sep
    /\ isValidLevelStyle s1 = true /\ isValidLevelStyle s2 = true
    /\ (sep = "" \/ (String.length sep = 1%nat /\ isValidSeparator sep = true)).

(** The shape of a level-style token that the encoder can write and the
    decoder read back: not empty, without white space, comma or dot, not
    the skip marker, not beginning with a key word, and not ending in a
    separator character. *)
Definition style_token (s : string) : bool :=
  negb (String.eqb s "")
  && str_forall is_plain s
  && negb (String.eqb s "_")
  && negb (startsWith s FIRST_LEVEL_PART_KEY)
  && negb (startsWith s MAX_LEVEL_PART_KEY)
  && negb (startsWith s CONTENTS_PART_KEY)
  && match last_char s with
     | Some c => negb (isValidSeparator (String c ""))
     | None => false
     end.

(** What the round trip asks of [settingsTypes.ts]: level styles are
    tokens, and the defaults have no contents heading, no separator and
    valid level styles. *)
Record tokens_round_trip : Prop := {
  valid_style_is_token : forall s, isValidLevelStyle s = true -> style_token s = true;
  default_contents_empty : contents DEFAULT_SETTINGS = "";
  default_separator_empty : separator DEFAULT_SETTINGS = "";
  default_styleLevel1_valid : isValidLevelStyle (styleLevel1 DEFAULT_SETTINGS) = true;
  default_styleLevelOther_valid : isValidLevelStyle (styleLevelOther DEFAULT_SETTINGS) = true
}.

(** The shape of every record the compact decoder builds. *)
Record decoded (r : NumberHeadingsPluginSettings) : Prop := {
  decoded_auto : auto r = true \/ auto r = auto DEFAULT_SETTINGS;
  decoded_firstLevel :
    firstLevel r = firstLevel DEFAULT_SETTINGS
    \/ isValidFirstOrMaxLevel (VNum (firstLevel r)) = true;
  decoded_maxLevel :
    maxLevel r = maxLevel DEFAULT_SETTINGS
    \/ isValidFirstOrMaxLevel (VNum (maxLevel r)) = true;
  decoded_contents :
    contents r = ""
    \/ (isValidContents (contents r) = true
        /\ str_forall (is_not ",") (contents r) = true
        /\ trimEnd (contents r) = contents r);
  decoded_styleLevel1 : isValidLevelStyle (styleLevel1 r) = true;
  decoded_styleLevelOther : isValidLevelStyle (styleLevelOther r) = true;
  decoded_separator :
    separator r = ""
    \/ exists c, separator r = String c ""
                 /\ isValidSeparator (String c "") = true
                 /\ is_white_space c = false
                 /\ is_not "," c = true
}.

(** The values that [??] passes over. *)
Definition is_nullish (v : value) : bool :=
  match v with VUndefined | VNull => true | _ => false end.

(** The key is missing from the front matter, or holds null. *)
Definition no_value (fm : FrontMatterCache) (key : string) : Prop :=
  entries fm !! key = None
  \/ exists w, entries fm !! key = Some w /\ is_nullish w = true.

(** The entry that the legacy decoder reads for a pair of keys: the value
    of the preferred key unless it is missing or null, else the value of
    the deprecated key, else null. *)
Inductive legacy_entry (fm : FrontMatterCache) (preferred deprecated : string)
    : value -> Prop :=
| entry_preferred v :
    entries fm !! preferred = Some v -> is_nullish v = false ->
    legacy_entry fm preferred deprecated v
| entry_deprecated v :
    no_value fm preferred -> entries fm !! deprecated = Some v ->
    legacy_entry fm preferred deprecated v
| entry_absent :
    no_value fm preferred -> entries fm !! deprecated = None ->
    legacy_entry fm preferred deprecated VNull.

End CodecPredicates.

(** ** Inputs on which the claims are evaluated *)

Definition example_string : string :=
  "auto, first-level 2, max 4, contents Table of Contents, _.1.A-".

Definition example_record : NumberHeadingsPluginSettings :=
  {| skipTopLevel := true;
     firstLevel := Num 2;
     maxLevel := Num 4;
     styleLevel1 := "1";
     styleLevelOther := "A";
     auto := true;
     separator := "-";
     contents := "Table of Contents" |}.

(** Front matter that holds one entry. *)
Definition front_matter_of (key : string) (v : value) : FrontMatterCache :=
  {| position_start_line := 0; entries := {[ key := v ]} |}.

(** An editor holding the given lines. *)
Definition editor_of_lines (l : list string) : Editor :=
  {| getValue := join (String newline "") l |}.

(** Front matter whose [number headings] entry is present and empty. *)
Definition empty_entry_front_matter : FrontMatterCache :=
  {| position_start_line := 0;
     entries := {[ "number headings" := VStr ""; "number-headings-auto" := VBool true ]} |}.

(** Front matter that defines the key, for a block starting at line 0. *)
Definition key_front_matter : FrontMatterCache :=
  front_matter_of "number headings" (VStr "auto").

(** Settings whose contents heading holds a line break. *)
Definition two_line_settings : NumberHeadingsPluginSettings :=
  with_contents ("x" ++ String newline "y") Sample.DEFAULT_SETTINGS.

(** Front matter of the time before the compact format. *)
Definition legacy_front_matter : FrontMatterCache :=
  {| position_start_line := 0;
     entries := {[ "number-headings-auto" := VBool true;
                   "header-numbering-max-level" := VNum (Num 3);
                   "number-headings-style-level-1" := VStr "B" ]} |}.

(** ** Predicates of the further properties *)

Section MorePredicates.

Context `{ST : SettingsTypes}.

(** Every field is the default or a value that passed its validity
    predicate ([skipTopLevel] is a flag that either holds). *)
Definition default_or_valid (r : NumberHeadingsPluginSettings) : Prop :=
  (auto r = true \/ auto r = auto DEFAULT_SETTINGS)
  /\ (firstLevel r = firstLevel DEFAULT_SETTINGS
      \/ isValidFirstOrMaxLevel (VNum (firstLevel r)) = true)
  /\ (maxLevel r = maxLevel DEFAULT_SETTINGS
      \/ isValidFirstOrMaxLevel (VNum (maxLevel r)) = true)
  /\ (contents r = contents DEFAULT_SETTINGS
      \/ (contents r <> "" /\ isValidContents (contents r) = true))
  /\ (styleLevel1 r = styleLevel1 DEFAULT_SETTINGS
      \/ isValidLevelStyle (styleLevel1 r) = true)
  /\ (styleLevelOther r = styleLevelOther DEFAULT_SETTINGS
      \/ isValidLevelStyle (styleLevelOther r) = true)
  /\ (separator r = separator DEFAULT_SETTINGS
      \/ (String.length (separator r) = 1%nat /\ isValidSeparator (separator r) = true)).

Definition kind_eqb (a b : part_kind) : bool :=
  match a, b with
  | EmptyPart, EmptyPart | AutoPart, AutoPart | FirstLevelPart, FirstLevelPart
  | MaxLevelPart, MaxLevelPart | ContentsPart, ContentsPart
  | FormattingPart, FormattingPart => true
  | _, _ => false
  end.

(** The parts that take branch [k] of the loop body, in their order. *)
Definition parts_of_kind (k : part_kind) (parts : list string) : list string :=
  List.filter (fun p => kind_eqb (classify (trim p)) k) parts.

End MorePredicates.

(** The four string fields hold no character outside [P]. *)
Definition string_fields (P : ascii -> bool) (r : NumberHeadingsPluginSettings) : Prop :=
  str_forall P (contents r) = true
  /\ str_forall P (styleLevel1 r) = true
  /\ str_forall P (styleLevelOther r) = true
  /\ str_forall P (separator r) = true.

(** The line that a save writes for the key. *)
Definition key_line (settings : NumberHeadingsPluginSettings) : string :=
  "number headings: " ++ settingsToCompactFrontMatterValue settings.

(** * Properties *)

(** ** The primitives on examples *)

Example split_keeps_empty_pieces : split "," "a,,b," = ["a"; ""; "b"; ""].
Proof. reflexivity. Qed.

Example split_of_empty : split "," "" = [""].
Proof. reflexivity. Qed.

Example trim_both_ends : trim "  a b  " = "a b".
Proof. reflexivity. Qed.

Example parseInt_prefix : parseInt " -12x" = Num (-12).
Proof. reflexivity. Qed.

Example parseInt_hexadecimal : parseInt "0x1f" = Num 31.
Proof. reflexivity. Qed.

Example parseInt_no_digit : parseInt "" = NaN /\ parseInt "x1" = NaN.
Proof. split; reflexivity. Qed.

Example number_to_string_decimal :
  number_to_string (Num 1204) = "1204" /\ number_to_string (Num 0) = "0"
  /\ number_to_string (Num (-70)) = "-70" /\ number_to_string NaN = "NaN".
Proof. repeat split; reflexivity. Qed.

Example to_string_of_array : to_string (VArr [VStr "a"; VNull; VNum (Num 3)]) = "a,,3".
Proof. reflexivity. Qed.

Example replaceRange_one_line :
  lines (replaceRange ("x" ++ String newline "")
           {| line := 1; ch := 0 |} {| line := 2; ch := 0 |}
           (editor_of_lines ["a"; "b"; "c"]))
  = ["a"; "x"; "c"].
Proof. reflexivity. Qed.

Example replaceRange_insert :
  lines (replaceRange ("x" ++ String newline "")
           {| line := 1; ch := 0 |} {| line := 1; ch := 0 |}
           (editor_of_lines ["a"; "b"; "c"]))
  = ["a"; "x"; "b"; "c"].
Proof. reflexivity. Qed.

(** ** Facts on the string primitives *)

Section JsFacts.

Local Open Scope nat_scope.

Lemma append_nil_r (s : string) : s ++ "" = s.
Proof. induction s as [|c s IH]; simpl; [done | by rewrite IH]. Qed.

Lemma append_assoc (a b c : string) : (a ++ b) ++ c = a ++ (b ++ c).
Proof. induction a as [|x a IH]; simpl; [done | by rewrite IH]. Qed.

Lemma append_eq_nil (a b : string) : a ++ b = "" -> a = "" /\ b = "".
Proof. destruct a; simpl; [done | discriminate]. Qed.

Lemma length_append (a b : string) :
  String.length (a ++ b) = String.length a + String.length b.
Proof. induction a as [|x a IH]; simpl; [done | by rewrite IH]. Qed.

Lemma str_forall_app P (a b : string) :
  str_forall P (a ++ b) = str_forall P a && str_forall P b.
Proof.
  induction a as [|x a IH]; simpl; [done |].
  by rewrite IH, andb_assoc.
Qed.

Lemma str_forall_impl (P Q : ascii -> bool) (s : string) :
  (forall c, P c = true -> Q c = true) ->
  str_forall P s = true -> str_forall Q s = true.
Proof.
  intros HPQ. induction s as [|c s IH]; simpl; [done |].
  rewrite !andb_true_iff. intros [Hc Hs]. auto.
Qed.

Lemma str_forall_last P (s : string) c :
  str_forall P s = true -> last_char s = Some c -> P c = true.
Proof.
  induction s as [|x s IH]; simpl; [done |].
  rewrite andb_true_iff. intros [Hx Hs].
  destruct s as [|y s']; [intros [= <-]; done | auto].
Qed.

Lemma last_char_snoc (a : string) c : last_char (a ++ String c "") = Some c.
Proof.
  induction a as [|x a IH]; simpl; [done |].
  rewrite IH. by destruct (a ++ String c "").
Qed.

Lemma last_char_app (a b : string) : b <> "" -> last_char (a ++ b) = last_char b.
Proof.
  intros Hb. induction a as [|x a IH]; simpl; [done |].
  rewrite IH. destruct (a ++ b) eqn:E; [|done].
  by apply append_eq_nil in E as [_ ?].
Qed.

(** [s[s.length - 1]] is the last character. *)
Lemma char_at_last (s : string) :
  char_at s (String.length s - 1) = (fun c => String c "") <$> last_char s.
Proof.
  unfold char_at. induction s as [|x s IH]; [done |].
  destruct s as [|y s']; [done |].
  replace (String.length (String x (String y s')) - 1)
    with (S (String.length (String y s') - 1)) by (simpl; lia).
  exact IH.
Qed.

Lemma substring_to_snoc (a : string) c :
  substring_to (String.length (a ++ String c "") - 1) (a ++ String c "") = a.
Proof.
  rewrite length_append. simpl. rewrite Nat.add_1_r. simpl. rewrite Nat.sub_0_r.
  induction a as [|x a IH]; simpl; [done | by rewrite IH].
Qed.

Lemma substring_from_forall P n (s : string) :
  str_forall P s = true -> str_forall P (substring_from n s) = true.
Proof.
  revert s. induction n as [|n IH]; intros s; [by destruct s |].
  destruct s as [|c s]; simpl; [done |].
  rewrite andb_true_iff. intros [_ Hs]. auto.
Qed.

(** *** Trimming *)

Lemma trimStart_forall P (s : string) :
  str_forall P s = true -> str_forall P (trimStart s) = true.
Proof.
  induction s as [|c s IH]; simpl; [done |].
  rewrite andb_true_iff. intros [Hc Hs].
  destruct (is_white_space c); [auto | simpl; by rewrite Hc, Hs].
Qed.

Lemma trimEnd_forall P (s : string) :
  str_forall P s = true -> str_forall P (trimEnd s) = true.
Proof.
  induction s as [|c s IH]; simpl; [done |].
  rewrite andb_true_iff. intros [Hc Hs]. specialize (IH Hs).
  destruct (trimEnd s) as [|y t].
  - destruct (is_white_space c); simpl; [done | by rewrite Hc].
  - change (str_forall P (String c (String y t))) with (P c && str_forall P (String y t)).
    by rewrite Hc, IH.
Qed.

Lemma trim_forall P (s : string) :
  str_forall P s = true -> str_forall P (trim s) = true.
Proof. intros H. by apply trimEnd_forall, trimStart_forall. Qed.

(** The last character left by [trimEnd] is not white space. *)
Lemma trimEnd_last (s : string) c :
  last_char (trimEnd s) = Some c -> is_white_space c = false.
Proof.
  induction s as [|x s IH]; simpl; [done |].
  destruct (trimEnd s) as [|y t].
  - destruct (is_white_space x) eqn:Hx; simpl; [done | by intros [= <-]].
  - exact IH.
Qed.

(** A fixed point of [trimEnd] stays one when characters are dropped in
    front. *)
Lemma trimEnd_fixed_tail c (s : string) :
  trimEnd (String c s) = String c s -> trimEnd s = s.
Proof.
  simpl. destruct (trimEnd s) as [|y t] eqn:E.
  - destruct (is_white_space c); [done |]. by intros [= <-].
  - by intros [= <-].
Qed.

Lemma trimEnd_fixed_substring_from n (s : string) :
  trimEnd s = s -> trimEnd (substring_from n s) = substring_from n s.
Proof.
  revert s. induction n as [|n IH]; intros s H; [by destruct s |].
  destruct s as [|c s]; [done |]. simpl. apply IH. by eapply trimEnd_fixed_tail.
Qed.

Lemma trimEnd_idemp (s : string) : trimEnd (trimEnd s) = trimEnd s.
Proof.
  induction s as [|c s IH]; simpl; [done |].
  destruct (trimEnd s) as [|y t] eqn:E.
  - destruct (is_white_space c) eqn:Hc; simpl; [done | by rewrite Hc].
  - change (trimEnd (String c (String y t)))
      with (match trimEnd (String y t) with
            | "" => if is_white_space c then "" else String c ""
            | t' => String c t'
            end).
    by rewrite IH.
Qed.

Lemma trimEnd_app (a b : string) :
  b <> "" -> trimEnd b = b -> trimEnd (a ++ b) = a ++ b.
Proof.
  intros Hb Hfix. induction a as [|x a IH]; simpl; [done |].
  rewrite IH. destruct (a ++ b) eqn:E; [|done].
  by apply append_eq_nil in E as [_ ?].
Qed.

Lemma trimEnd_no_white_space (s : string) :
  str_forall (fun c => negb (is_white_space c)) s = true -> trimEnd s = s.
Proof.
  induction s as [|c s IH]; simpl; [done |].
  rewrite andb_true_iff, negb_true_iff. intros [Hc Hs].
  rewrite (IH Hs). destruct s; [by rewrite Hc | done].
Qed.

(** *** Splitting *)

Lemma split_nonempty sep (s : string) : split sep s <> [].
Proof.
  induction s as [|c s IH]; simpl; [done |].
  destruct (Ascii.eqb c sep); [done |]. by destruct (split sep s).
Qed.

Lemma split_none sep (a : string) :
  str_forall (is_not sep) a = true -> split sep a = [a].
Proof.
  induction a as [|c a IH]; simpl; [done |].
  unfold is_not at 1. rewrite andb_true_iff, negb_true_iff. intros [Hc Ha].
  by rewrite Hc, (IH Ha).
Qed.

Lemma split_app sep (a b : string) :
  str_forall (is_not sep) a = true ->
  split sep (a ++ String sep b) = a :: split sep b.
Proof.
  induction a as [|c a IH]; simpl.
  - intros _. by rewrite Ascii.eqb_refl.
  - unfold is_not at 1. rewrite andb_true_iff, negb_true_iff. intros [Hc Ha].
    by rewrite Hc, (IH Ha).
Qed.

(** No piece of a split holds the separator. *)
Lemma split_pieces sep (s : string) :
  Forall (fun p => str_forall (is_not sep) p = true) (split sep s).
Proof.
  induction s as [|c s IH]; simpl; [by repeat constructor |].
  destruct (Ascii.eqb c sep) eqn:Hc; [by constructor |].
  destruct (split sep s) as [|h t]; [by repeat constructor; simpl; unfold is_not; rewrite Hc |].
  inversion IH as [|? ? Hh Ht]; subst. constructor; [|done].
  simpl. unfold is_not at 1. by rewrite Hc, Hh.
Qed.

(** A keyword without the separator is a prefix of [a ++ sep ++ b] only when
    it is a prefix of [a]. *)
Lemma prefix_before_separator sep (k a b : string) :
  str_forall (is_not sep) k = true ->
  String.prefix k (a ++ String sep b) = true -> String.prefix k a = true.
Proof.
  revert a. induction k as [|x k IH]; intros a; simpl; [by destruct a |].
  unfold is_not at 1. rewrite andb_true_iff, negb_true_iff. intros [Hx Hk].
  destruct a as [|y a]; simpl.
  - destruct (ascii_dec x sep) as [->|Hne]; [by rewrite Ascii.eqb_refl in Hx | done].
  - destruct (ascii_dec x y); [by apply IH | done].
Qed.

(** *** Numbers and their decimal form *)

Local Open Scope Z_scope.

Lemma digit_cases (k : Z) :
  0 <= k < 10 ->
  k = 0 \/ k = 1 \/ k = 2 \/ k = 3 \/ k = 4 \/ k = 5 \/ k = 6 \/ k = 7 \/ k = 8 \/ k = 9.
Proof. lia. Qed.

Lemma digit_value_digit_char (k : Z) :
  0 <= k < 10 -> digit_value 10 (digit_char k) = Some k.
Proof.
  intros H. destruct (digit_cases k H) as [->|[->|[->|[->|[->|[->|[->|[->|[->| ->]]]]]]]]];
    reflexivity.
Qed.

Lemma digit_char_forall (P : ascii -> bool) :
  str_forall P "0123456789" = true ->
  forall k, 0 <= k < 10 -> P (digit_char k) = true.
Proof.
  simpl. rewrite !andb_true_iff.
  intros (H0 & H1 & H2 & H3 & H4 & H5 & H6 & H7 & H8 & H9 & _) k H.
  destruct (digit_cases k H) as [->|[->|[->|[->|[->|[->|[->|[->|[->| ->]]]]]]]]];
    assumption.
Qed.

Lemma digits_acc_forall (P : ascii -> bool) fuel n (acc : string) :
  str_forall P "0123456789" = true ->
  str_forall P acc = true ->
  str_forall P (digits_acc fuel n acc) = true.
Proof.
  intros HP. revert n acc. induction fuel as [|fuel IH]; intros n acc Hacc; simpl; [done |].
  assert (str_forall P (String (ascii_of_N (Z.to_N (48 + n mod 10))) acc) = true) as H.
  { simpl. rewrite Hacc, andb_true_r.
    apply (digit_char_forall P HP), Z.mod_pos_bound. lia. }
  destruct (n <? 10); [done | by apply IH].
Qed.

Lemma digits_forall (P : ascii -> bool) n :
  str_forall P "0123456789" = true -> str_forall P (digits n) = true.
Proof. intros HP. by apply digits_acc_forall. Qed.

Lemma digits_acc_nonempty fuel n (acc : string) :
  acc <> "" -> digits_acc fuel n acc <> "".
Proof.
  revert n acc. induction fuel as [|fuel IH]; intros n acc Hacc; simpl; [done |].
  destruct (n <? 10); [done | by apply IH].
Qed.

Lemma digits_nonempty n : digits n <> "".
Proof.
  unfold digits. simpl. destruct (n <? 10); [done | by apply digits_acc_nonempty].
Qed.

(** Reading back the digits written by [digits_acc]. *)
Lemma parse_digits_acc fuel n (acc : string) :
  0 <= n < 2 ^ Z.of_nat fuel ->
  exists B, forall a,
    parse_digits 10 a (digits_acc fuel n acc) = parse_digits 10 (a * B + n) acc.
Proof.
  revert n acc. induction fuel as [|fuel IH]; intros n acc Hn.
  - exists 1. intros a. simpl in *. f_equal. lia.
  - cbn [digits_acc].
    assert (0 <= n mod 10 < 10) as Hmod by (apply Z.mod_pos_bound; lia).
    destruct (n <? 10) eqn:Hlt.
    + apply Z.ltb_lt in Hlt. exists 10. intros a.
      cbn [parse_digits]. fold (digit_char (n mod 10)).
      rewrite digit_value_digit_char by done.
      rewrite Z.mod_small by lia. done.
    + apply Z.ltb_ge in Hlt.
      destruct (IH (n / 10) (String (digit_char (n mod 10)) acc)) as [B HB].
      { split; [apply Z.div_pos; lia |].
        rewrite Nat2Z.inj_succ, Z.pow_succ_r in Hn by lia.
        apply Z.div_lt_upper_bound; lia. }
      exists (B * 10). intros a. fold (digit_char (n mod 10)). rewrite HB.
      cbn [parse_digits]. rewrite digit_value_digit_char by done.
      f_equal. pose proof (Z.div_mod n 10). lia.
Qed.

Lemma parse_digits_digits n : 0 <= n -> parse_digits 10 0 (digits n) = n.
Proof.
  intros Hn. unfold digits.
  destruct (parse_digits_acc (S (Z.to_nat (Z.log2 n))) n "") as [B HB].
  { split; [done |]. rewrite Nat2Z.inj_succ, Z2Nat.id by apply Z.log2_nonneg.
    destruct (Z.eq_dec n 0) as [->|]; [done |].
    apply Z.log2_spec. lia. }
  rewrite HB. simpl. lia.
Qed.

Lemma decimal_digit_cases (c : ascii) :
  is_decimal_digit c = true ->
  c = "0"%char \/ c = "1"%char \/ c = "2"%char \/ c = "3"%char \/ c = "4"%char
  \/ c = "5"%char \/ c = "6"%char \/ c = "7"%char \/ c = "8"%char \/ c = "9"%char.
Proof.
  destruct c as [[] [] [] [] [] [] [] []]; vm_compute; intros H;
    first [discriminate H | tauto].
Qed.

Ltac eval_chars :=
  repeat match goal with
    | |- context [is_white_space ?c] =>
        let v := eval vm_compute in (is_white_space c) in
        progress change (is_white_space c) with v
    | |- context [digit_value ?r ?c] =>
        let v := eval vm_compute in (digit_value r c) in
        progress change (digit_value r c) with v
    end.

Ltac eval_parseInt :=
  unfold parseInt; cbn [trimStart]; eval_chars; cbv beta iota zeta;
  cbn [starts_with_digit parse_digits]; eval_chars; cbv beta iota zeta.

(** [parseInt] on a non-empty string of decimal digits, with or without a
    minus sign in front. *)
Lemma parseInt_decimal (s : string) :
  s <> "" -> str_forall is_decimal_digit s = true ->
  parseInt s = Num (parse_digits 10 0 s)
  /\ parseInt (String "-" s) = Num (- parse_digits 10 0 s).
Proof.
  destruct s as [|c s]; [done | intros _]. simpl str_forall.
  rewrite andb_true_iff. intros [Hc Hs].
  destruct (decimal_digit_cases c Hc) as [->|[->|[->|[->|[->|[->|[->|[->|[->| ->]]]]]]]]].
  1: { destruct s as [|y s]; [done |].
       simpl in Hs. apply andb_true_iff in Hs as [Hy _].
       destruct (decimal_digit_cases y Hy) as [->|[->|[->|[->|[->|[->|[->|[->|[->| ->]]]]]]]]];
         split; eval_parseInt; f_equal; lia. }
  all: split; eval_parseInt; f_equal; lia.
Qed.

Lemma parseInt_number_to_string (n : number) : parseInt (number_to_string n) = n.
Proof.
  destruct n as [|z]; [reflexivity |]. unfold number_to_string.
  destruct (z <? 0) eqn:Hz.
  - apply Z.ltb_lt in Hz.
    destruct (parseInt_decimal (digits (- z))) as [_ ->].
    + apply digits_nonempty.
    + by apply digits_forall.
    + rewrite parse_digits_digits by lia. f_equal. lia.
  - apply Z.ltb_ge in Hz.
    destruct (parseInt_decimal (digits z)) as [-> _].
    + apply digits_nonempty.
    + by apply digits_forall.
    + by rewrite parse_digits_digits.
Qed.

Lemma number_to_string_forall (P : ascii -> bool) (n : number) :
  str_forall P "-0123456789Na" = true -> str_forall P (number_to_string n) = true.
Proof.
  intros HP. simpl in HP. rewrite !andb_true_iff in HP.
  destruct HP as (Hm & H0 & H1 & H2 & H3 & H4 & H5 & H6 & H7 & H8 & H9 & HN & Ha & _).
  assert (str_forall P "0123456789" = true) as Hd.
  { simpl. by rewrite H0, H1, H2, H3, H4, H5, H6, H7, H8, H9. }
  destruct n as [|z]; simpl; [by rewrite HN, Ha |].
  destruct (z <? 0); simpl; [rewrite Hm; simpl |]; by apply digits_forall.
Qed.

Lemma number_to_string_nonempty (n : number) : number_to_string n <> "".
Proof.
  destruct n as [|z]; simpl; [done |]. destruct (z <? 0); [done | apply digits_nonempty].
Qed.

End JsFacts.

(** ** Facts on the decoder *)

Section CodecFacts.

Context `{ST : SettingsTypes}.

Local Open Scope nat_scope.

Lemma parsePart_auto (settings : NumberHeadingsPluginSettings) :
  parsePart settings "auto" = with_auto true settings.
Proof. reflexivity. Qed.

Lemma trim_keyword_value (k v : string) c :
  is_white_space c = false -> v <> "" -> trimEnd v = v ->
  trim (String c k ++ v) = String c k ++ v.
Proof.
  intros Hc Hv Hfix. unfold trim. simpl. rewrite Hc.
  change (String c (k ++ v)) with (String c k ++ v). by apply trimEnd_app.
Qed.

Lemma number_to_string_trimEnd (n : number) :
  trimEnd (number_to_string n) = number_to_string n.
Proof. apply trimEnd_no_white_space. by apply number_to_string_forall. Qed.

Lemma parsePart_firstLevel (settings : NumberHeadingsPluginSettings) (n : number) :
  parsePart settings ("first-level " ++ number_to_string n)
  = if isValidFirstOrMaxLevel (VNum n) then with_firstLevel n settings else settings.
Proof.
  unfold parsePart.
  rewrite (trim_keyword_value "irst-level " (number_to_string n) "f")
    by (first [reflexivity | apply number_to_string_nonempty | apply number_to_string_trimEnd]).
  unfold parseCleanPart.
  change (substring_from (String.length FIRST_LEVEL_PART_KEY + 1)
            ("first-level " ++ number_to_string n)) with (number_to_string n).
  by rewrite parseInt_number_to_string.
Qed.

Lemma parsePart_maxLevel (settings : NumberHeadingsPluginSettings) (n : number) :
  parsePart settings ("max " ++ number_to_string n)
  = if isValidFirstOrMaxLevel (VNum n) then with_maxLevel n settings else settings.
Proof.
  unfold parsePart.
  rewrite (trim_keyword_value "ax " (number_to_string n) "m")
    by (first [reflexivity | apply number_to_string_nonempty | apply number_to_string_trimEnd]).
  unfold parseCleanPart.
  change (substring_from (String.length MAX_LEVEL_PART_KEY + 1)
            ("max " ++ number_to_string n)) with (number_to_string n).
  by rewrite parseInt_number_to_string.
Qed.

Lemma parsePart_contents (settings : NumberHeadingsPluginSettings) (c : string) :
  c <> "" -> trimEnd c = c ->
  parsePart settings ("contents " ++ c)
  = if isValidContents c then with_contents c settings else settings.
Proof.
  intros Hc Hfix. unfold parsePart.
  rewrite (trim_keyword_value "ontents " c "c") by done.
  unfold parseCleanPart.
  change (substring_from (String.length CONTENTS_PART_KEY + 1) ("contents " ++ c)) with c.
  destruct c as [|x c]; done.
Qed.

Lemma plain_not_white_space (s : string) :
  str_forall is_plain s = true ->
  str_forall (fun c => negb (is_white_space c)) s = true.
Proof.
  apply str_forall_impl. intros c. unfold is_plain. rewrite !andb_true_iff. tauto.
Qed.

Lemma plain_no_comma (s : string) :
  str_forall is_plain s = true -> str_forall (is_not ",") s = true.
Proof.
  apply str_forall_impl. intros c. unfold is_plain. rewrite !andb_true_iff. tauto.
Qed.

Lemma plain_no_dot (s : string) :
  str_forall is_plain s = true -> str_forall (is_not ".") s = true.
Proof.
  apply str_forall_impl. intros c. unfold is_plain. rewrite !andb_true_iff. tauto.
Qed.

Lemma style_token_facts (s : string) :
  style_token s = true ->
  s <> "" /\ str_forall is_plain s = true /\ s <> "_"
  /\ startsWith s FIRST_LEVEL_PART_KEY = false
  /\ startsWith s MAX_LEVEL_PART_KEY = false
  /\ startsWith s CONTENTS_PART_KEY = false
  /\ exists c, last_char s = Some c /\ isValidSeparator (String c "") = false.
Proof.
  unfold style_token. rewrite !andb_true_iff, !negb_true_iff, !String.eqb_neq.
  intros ((((((? & ?) & ?) & ?) & ?) & ?) & Hlast).
  repeat split; try done.
  destruct (last_char s) as [c|]; [|done].
  exists c. by rewrite negb_true_iff in Hlast.
Qed.

(** The descriptors of an encoded formatting part. *)
Lemma split_style_part (skip : bool) (s1 s2 : string) :
  str_forall is_plain s1 = true -> str_forall is_plain s2 = true ->
  split "." (skip_marker skip ++ s1 ++ String "." s2)
  = if skip then ["_"; s1; s2] else [s1; s2].
Proof.
  intros H1 H2.
  assert (split "." (s1 ++ String "." s2) = [s1; s2]) as E.
  { rewrite split_app by by apply plain_no_dot.
    by rewrite split_none by by apply plain_no_dot. }
  destruct skip; simpl; by rewrite E.
Qed.

(** An encoded formatting part reaches the formatting branch. *)
Lemma style_part_is_formatting (settings : NumberHeadingsPluginSettings)
    (skip : bool) (s1 r : string) :
  style_token s1 = true ->
  parseCleanPart settings (skip_marker skip ++ s1 ++ String "." r)
  = parseFormattingPart settings (skip_marker skip ++ s1 ++ String "." r).
Proof.
  intros Hs1. destruct skip; [reflexivity |].
  destruct (style_token_facts s1 Hs1) as (_ & Hplain & _ & Hf & Hm & Hc & _).
  simpl skip_marker. change ("" ++ ?x) with x.
  unfold parseCleanPart.
  assert (String.eqb (s1 ++ String "." r) AUTO_PART_KEY = false) as ->.
  { apply String.eqb_neq. intros E.
    apply (f_equal (str_forall (is_not "."))) in E.
    rewrite str_forall_app in E. simpl in E. by rewrite andb_false_r in E. }
  assert (forall k, str_forall (is_not ".") k = true -> startsWith s1 k = false ->
                    startsWith (s1 ++ String "." r) k = false) as Hk.
  { intros k Hdot Hno. destruct (startsWith (s1 ++ String "." r) k) eqn:E; [|done].
    unfold startsWith in *. apply prefix_before_separator in E; [congruence | done]. }
  by rewrite !Hk.
Qed.

Lemma style_part_trim (skip : bool) (s1 s2 sep : string) :
  style_token s1 = true -> style_token s2 = true ->
  sep = "" \/ (exists c, sep = String c "" /\ is_white_space c = false) ->
  trim (skip_marker skip ++ s1 ++ String "." (s2 ++ sep))
  = skip_marker skip ++ s1 ++ String "." (s2 ++ sep).
Proof.
  intros Hs1 Hs2 Hsep.
  destruct (style_token_facts s1 Hs1) as (Hne1 & Hplain1 & _).
  destruct (style_token_facts s2 Hs2) as (Hne2 & Hplain2 & _).
  assert (trimEnd (s2 ++ sep) = s2 ++ sep /\ s2 ++ sep <> "") as [Hfix Hne].
  { split; [| by intros [? _]%append_eq_nil].
    destruct Hsep as [-> | (c & -> & Hc)].
    - rewrite append_nil_r. by apply trimEnd_no_white_space, plain_not_white_space.
    - apply trimEnd_app; [done | simpl; by rewrite Hc]. }
  unfold trim.
  assert (trimStart (skip_marker skip ++ s1 ++ String "." (s2 ++ sep))
          = skip_marker skip ++ s1 ++ String "." (s2 ++ sep)) as ->.
  { destruct skip; [reflexivity |]. simpl skip_marker. change ("" ++ ?x) with x.
    destruct s1 as [|x s1]; [done |]. simpl in Hplain1.
    unfold is_plain at 1 in Hplain1. rewrite !andb_true_iff, negb_true_iff in Hplain1.
    destruct Hplain1 as [[[Hx _] _] _]. simpl. by rewrite Hx. }
  clear Hsep. generalize dependent (s2 ++ sep). intros t Hfix Hne.
  replace (skip_marker skip ++ s1 ++ String "." t)
    with ((skip_marker skip ++ s1 ++ ".") ++ t) by (by rewrite !append_assoc).
  by apply trimEnd_app.
Qed.

Lemma style_part_assoc (skip : bool) (s1 s2 sep : string) :
  skip_marker skip ++ s1 ++ String "." (s2 ++ sep)
  = (skip_marker skip ++ s1 ++ String "." s2) ++ sep.
Proof.
  by rewrite !append_assoc.
Qed.

(** The formatting branch on the descriptors of an encoded part. *)
Lemma parseFormattingPart_descriptors (settings : NumberHeadingsPluginSettings)
    (skip : bool) (s1 s2 : string) :
  style_token s1 = true -> style_token s2 = true ->
  isValidLevelStyle s1 = true -> isValidLevelStyle s2 = true ->
  (let descriptors := if skip then ["_"; s1; s2] else [s1; s2] in
   let '(settings, firstNumberedDescriptor) :=
     if (1 <? length descriptors) && String.eqb (default "" (descriptors !! 0)) "_"
     then (with_skipTopLevel true settings, 1)
     else (with_skipTopLevel false settings, 0) in
   if 2 <=? length descriptors - firstNumberedDescriptor then
     let styleLevel1 := default "" (descriptors !! firstNumberedDescriptor) in
     let settings :=
       if isValidLevelStyle styleLevel1 then with_styleLevel1 styleLevel1 settings
       else settings in
     let styleLevelOther := default "" (descriptors !! (firstNumberedDescriptor + 1)) in
     if isValidLevelStyle styleLevelOther then with_styleLevelOther styleLevelOther settings
     else settings
   else settings)
  = with_styleLevelOther s2 (with_styleLevel1 s1 (with_skipTopLevel skip settings)).
Proof.
  intros Ht1 Ht2 Hv1 Hv2.
  destruct (style_token_facts s1 Ht1) as (_ & _ & Hmark & _).
  destruct skip; simpl.
  - by rewrite Hv1, Hv2.
  - apply String.eqb_neq in Hmark. rewrite Hmark. simpl. by rewrite Hv1, Hv2.
Qed.

Lemma parseFormattingPart_encoded (settings : NumberHeadingsPluginSettings)
    (skip : bool) (s1 s2 sep : string) :
  style_token s1 = true -> style_token s2 = true ->
  isValidLevelStyle s1 = true -> isValidLevelStyle s2 = true ->
  sep = "" \/ (exists c, sep = String c "" /\ isValidSeparator (String c "") = true) ->
  parseFormattingPart settings (skip_marker skip ++ s1 ++ String "." (s2 ++ sep))
  = with_styleLevelOther s2
      (with_styleLevel1 s1
         (with_skipTopLevel skip
            (if String.eqb sep "" then settings else with_separator sep settings))).
Proof.
  intros Ht1 Ht2 Hv1 Hv2 Hsep.
  destruct (style_token_facts s1 Ht1) as (_ & Hp1 & _).
  destruct (style_token_facts s2 Ht2) as (Hne2 & Hp2 & _ & _ & _ & _ & c2 & Hlast2 & Hinv2).
  unfold parseFormattingPart. rewrite char_at_last, style_part_assoc.
  destruct Hsep as [-> | (c & -> & Hc)].
  - rewrite append_nil_r.
    replace (skip_marker skip ++ s1 ++ String "." s2)
      with ((skip_marker skip ++ s1 ++ ".") ++ s2) by (by rewrite !append_assoc).
    rewrite last_char_app, Hlast2 by done. simpl fmap. cbv beta iota. rewrite Hinv2.
    replace ((skip_marker skip ++ s1 ++ ".") ++ s2)
      with (skip_marker skip ++ s1 ++ String "." s2) by (by rewrite !append_assoc).
    rewrite split_style_part by done.
    by apply parseFormattingPart_descriptors.
  - rewrite last_char_snoc. simpl fmap. cbv beta iota. rewrite Hc, substring_to_snoc.
    rewrite split_style_part by done.
    by apply parseFormattingPart_descriptors.
Qed.

(** Decoding the formatting part written by the encoder. *)
Lemma parsePart_style (settings : NumberHeadingsPluginSettings)
    (skip : bool) (s1 s2 sep : string) :
  style_token s1 = true -> style_token s2 = true ->
  isValidLevelStyle s1 = true -> isValidLevelStyle s2 = true ->
  sep = "" \/ (exists c, sep = String c "" /\ isValidSeparator (String c "") = true
                         /\ is_white_space c = false) ->
  parsePart settings (skip_marker skip ++ s1 ++ String "." (s2 ++ sep))
  = with_styleLevelOther s2
      (with_styleLevel1 s1
         (with_skipTopLevel skip
            (if String.eqb sep "" then settings else with_separator sep settings))).
Proof.
  intros Ht1 Ht2 Hv1 Hv2 Hsep. unfold parsePart.
  rewrite style_part_trim by (by try destruct Hsep as [?|(c & ? & ? & ?)]; eauto).
  assert ((String.length (skip_marker skip ++ s1 ++ String "." (s2 ++ sep)) =? 0) = false) as ->.
  { rewrite !length_append. simpl. apply Nat.eqb_neq. lia. }
  rewrite style_part_is_formatting by done.
  apply parseFormattingPart_encoded; try done.
  destruct Hsep as [?|(c & ? & ? & ?)]; eauto.
Qed.

(** *** The loop over the parts of an encoded string *)

Lemma fold_parts_next (a rest : string) (settings : NumberHeadingsPluginSettings) :
  str_forall (is_not ",") a = true ->
  fold_left parsePart (split "," (a ++ ", " ++ rest)) settings
  = fold_left parsePart (split "," (" " ++ rest)) (parsePart settings a).
Proof.
  intros Ha. change (", " ++ rest) with (String "," (" " ++ rest)).
  by rewrite split_app.
Qed.

Lemma fold_parts_next_spaced (a rest : string) (settings : NumberHeadingsPluginSettings) :
  str_forall (is_not ",") a = true ->
  fold_left parsePart (split "," (" " ++ a ++ ", " ++ rest)) settings
  = fold_left parsePart (split "," (" " ++ rest)) (parsePart settings a).
Proof.
  intros Ha. change (" " ++ a ++ ", " ++ rest) with ((" " ++ a) ++ String "," (" " ++ rest)).
  rewrite split_app by (simpl; by rewrite Ha). done.
Qed.

Lemma fold_parts_last_spaced (a : string) (settings : NumberHeadingsPluginSettings) :
  str_forall (is_not ",") a = true ->
  fold_left parsePart (split "," (" " ++ a)) settings = parsePart settings a.
Proof.
  intros Ha. change (" " ++ a) with (String " " a).
  rewrite split_none by (simpl; by rewrite Ha). done.
Qed.

Lemma number_to_string_no_comma (n : number) :
  str_forall (is_not ",") (number_to_string n) = true.
Proof. by apply number_to_string_forall. Qed.

(** The encoded string, part by part. *)
Lemma encoded_parts (r : NumberHeadingsPluginSettings) :
  settingsToCompactFrontMatterValue r
  = (if auto r then "auto, " else "")
    ++ ("first-level " ++ number_to_string (firstLevel r)) ++ ", "
    ++ ("max " ++ number_to_string (maxLevel r)) ++ ", "
    ++ (if String.eqb (contents r) "" then "" else ("contents " ++ contents r) ++ ", ")
    ++ skip_marker (skipTopLevel r) ++ styleLevel1 r
    ++ String "." (styleLevelOther r ++ separator r).
Proof.
  unfold settingsToCompactFrontMatterValue, skip_marker.
  destruct (contents r) as [|x c]; simpl negb; cbv iota; simpl andb; cbv iota;
    rewrite !append_assoc; reflexivity.
Qed.

Lemma settings_ext (a b : NumberHeadingsPluginSettings) :
  skipTopLevel a = skipTopLevel b -> firstLevel a = firstLevel b ->
  maxLevel a = maxLevel b -> styleLevel1 a = styleLevel1 b ->
  styleLevelOther a = styleLevelOther b -> auto a = auto b ->
  separator a = separator b -> contents a = contents b -> a = b.
Proof. destruct a, b; simpl; intros; by subst. Qed.

(** Decoding an encoded record of the decoder's shape gives the record
    back. *)
Lemma decode_encode (r : NumberHeadingsPluginSettings) :
  tokens_round_trip -> decoded r ->
  parseCompactString (settingsToCompactFrontMatterValue r) = r.
Proof.
  intros [Htok Hdc Hdsep Hd1 Hd2] [Hau Hfl Hml Hc Hs1 Hs2 Hsep].
  pose proof (Htok _ Hs1) as Ht1. pose proof (Htok _ Hs2) as Ht2.
  destruct (style_token_facts _ Ht1) as (_ & Hp1 & _).
  destruct (style_token_facts _ Ht2) as (_ & Hp2 & _).
  assert (str_forall (is_not ",")
            (skip_marker (skipTopLevel r) ++ styleLevel1 r
               ++ String "." (styleLevelOther r ++ separator r)) = true) as Htail.
  { rewrite !str_forall_app. simpl. rewrite str_forall_app.
    rewrite (plain_no_comma _ Hp1), (plain_no_comma _ Hp2).
    destruct Hsep as [-> | (c & -> & _ & _ & Hc')]; simpl;
      [| rewrite Hc']; by destruct (skipTopLevel r). }
  unfold parseCompactString. rewrite encoded_parts.
  set (tail := skip_marker (skipTopLevel r) ++ styleLevel1 r
                 ++ String "." (styleLevelOther r ++ separator r)) in *.
  assert (forall settings,
    fold_left parsePart
      (split "," (" " ++ (if String.eqb (contents r) "" then ""
                          else ("contents " ++ contents r) ++ ", ") ++ tail)) settings
    = parsePart (if String.eqb (contents r) "" then settings
                 else with_contents (contents r) settings) tail) as Hrest.
  { intros settings. destruct (String.eqb (contents r) "") eqn:E.
    - change ("" ++ tail) with tail. by apply fold_parts_last_spaced.
    - apply String.eqb_neq in E. destruct Hc as [? | (Hv & Hcomma & Hfix)]; [done |].
      rewrite append_assoc, fold_parts_next_spaced by (simpl; by rewrite Hcomma).
      rewrite fold_parts_last_spaced by done.
      by rewrite parsePart_contents, Hv. }
  assert (forall settings,
    fold_left parsePart
      (split "," (" " ++ ("max " ++ number_to_string (maxLevel r)) ++ ", "
                  ++ (if String.eqb (contents r) "" then ""
                      else ("contents " ++ contents r) ++ ", ") ++ tail)) settings
    = parsePart (if String.eqb (contents r) "" then parsePart settings ("max " ++ number_to_string (maxLevel r))
                 else with_contents (contents r) (parsePart settings ("max " ++ number_to_string (maxLevel r)))) tail) as Hmax.
  { intros settings.
    rewrite fold_parts_next_spaced by (simpl; apply number_to_string_no_comma).
    apply Hrest. }
  set (after_auto := if auto r then with_auto true DEFAULT_SETTINGS else DEFAULT_SETTINGS).
  assert (fold_left parsePart
            (split "," ((if auto r then "auto, " else "")
               ++ ("first-level " ++ number_to_string (firstLevel r)) ++ ", "
               ++ ("max " ++ number_to_string (maxLevel r)) ++ ", "
               ++ (if String.eqb (contents r) "" then ""
                   else ("contents " ++ contents r) ++ ", ") ++ tail)) DEFAULT_SETTINGS
          = parsePart
              (if String.eqb (contents r) "" then
                 parsePart (parsePart after_auto ("first-level " ++ number_to_string (firstLevel r)))
                   ("max " ++ number_to_string (maxLevel r))
               else with_contents (contents r)
                      (parsePart (parsePart after_auto ("first-level " ++ number_to_string (firstLevel r)))
                         ("max " ++ number_to_string (maxLevel r)))) tail) as ->.
  { unfold after_auto. destruct (auto r).
    - change ("auto, " ++ ?x) with ("auto" ++ ", " ++ x).
      rewrite fold_parts_next by done.
      rewrite fold_parts_next_spaced by (simpl; apply number_to_string_no_comma).
      rewrite parsePart_auto. apply Hmax.
    - change ("" ++ ?x) with x.
      rewrite fold_parts_next by (simpl; apply number_to_string_no_comma).
      apply Hmax. }
  unfold tail. rewrite parsePart_firstLevel, parsePart_maxLevel.
  rewrite parsePart_style; try done.
  2: { destruct Hsep as [?|(c & ? & ? & ? & ?)]; eauto. }
  subst after_auto. clear Hrest Hmax Htail. clear tail.
  destruct r as [sk fl ml s1 s2 au sep c]; simpl in *.
  assert ((if String.eqb sep "" then separator DEFAULT_SETTINGS else sep) = sep) as Hsep'.
  { destruct (String.eqb_spec sep ""); [by subst; rewrite Hdsep | done]. }
  assert ((if String.eqb c "" then contents DEFAULT_SETTINGS else c) = c) as Hc'.
  { destruct (String.eqb_spec c ""); [by subst; rewrite Hdc | done]. }
  assert ((if isValidFirstOrMaxLevel (VNum fl) then fl else firstLevel DEFAULT_SETTINGS) = fl) as Hfl'.
  { destruct (isValidFirstOrMaxLevel (VNum fl)); [done | by destruct Hfl]. }
  assert ((if isValidFirstOrMaxLevel (VNum ml) then ml else maxLevel DEFAULT_SETTINGS) = ml) as Hml'.
  { destruct (isValidFirstOrMaxLevel (VNum ml)); [done | by destruct Hml]. }
  assert ((if au then true else auto DEFAULT_SETTINGS) = au) as Hau'.
  { destruct au; [done | by destruct Hau]. }
  clear Hau Hfl Hml Hc Hsep.
  apply settings_ext;
    repeat match goal with
      | |- context [if ?b then _ else _] => destruct b eqn:?
      end; simpl in *; congruence.
Qed.

(** *** The shape of decoded records *)

Lemma decoded_default : tokens_round_trip -> decoded DEFAULT_SETTINGS.
Proof. intros [? ? ? ? ?]. split; auto. Qed.

Lemma decoded_with_auto r : decoded r -> decoded (with_auto true r).
Proof. intros [? ? ? ? ? ? ?]. split; simpl; auto. Qed.

Lemma decoded_with_skipTopLevel b r : decoded r -> decoded (with_skipTopLevel b r).
Proof. intros [? ? ? ? ? ? ?]. split; simpl; auto. Qed.

Lemma decoded_with_firstLevel n r :
  isValidFirstOrMaxLevel (VNum n) = true -> decoded r -> decoded (with_firstLevel n r).
Proof. intros ? [? ? ? ? ? ? ?]. split; simpl; auto. Qed.

Lemma decoded_with_maxLevel n r :
  isValidFirstOrMaxLevel (VNum n) = true -> decoded r -> decoded (with_maxLevel n r).
Proof. intros ? [? ? ? ? ? ? ?]. split; simpl; auto. Qed.

Lemma decoded_with_styleLevel1 x r :
  isValidLevelStyle x = true -> decoded r -> decoded (with_styleLevel1 x r).
Proof. intros ? [? ? ? ? ? ? ?]. split; simpl; auto. Qed.

Lemma decoded_with_styleLevelOther x r :
  isValidLevelStyle x = true -> decoded r -> decoded (with_styleLevelOther x r).
Proof. intros ? [? ? ? ? ? ? ?]. split; simpl; auto. Qed.

Lemma decoded_with_contents x r :
  isValidContents x = true -> str_forall (is_not ",") x = true -> trimEnd x = x ->
  decoded r -> decoded (with_contents x r).
Proof. intros ? ? ? [? ? ? ? ? ? ?]. split; simpl; auto. Qed.

Lemma decoded_with_separator c r :
  isValidSeparator (String c "") = true -> is_white_space c = false ->
  is_not "," c = true ->
  decoded r -> decoded (with_separator (String c "") r).
Proof. intros ? ? ? [? ? ? ? ? ? ?]. split; simpl; eauto 10. Qed.

Lemma parseFormattingPart_decoded r (cleanPart : string) :
  str_forall (is_not ",") cleanPart = true ->
  (forall c, last_char cleanPart = Some c -> is_white_space c = false) ->
  decoded r -> decoded (parseFormattingPart r cleanPart).
Proof.
  intros Hcomma Hlast Hr. unfold parseFormattingPart. rewrite char_at_last.
  set (step := match (fun c => String c "") <$> last_char cleanPart with
               | Some c =>
                   if isValidSeparator c
                   then (with_separator c r,
                         substring_to (String.length cleanPart - 1) cleanPart)
                   else (r, cleanPart)
               | None => (r, cleanPart)
               end).
  assert (decoded step.1) as Hstep.
  { subst step. destruct (last_char cleanPart) as [c|] eqn:E; simpl; [|done].
    destruct (isValidSeparator (String c "")) eqn:Hv; simpl; [|done].
    apply decoded_with_separator; auto. by eapply str_forall_last. }
  destruct step as [r1 remainingPart]. simpl in Hstep.
  destruct ((1 <? length (split "." remainingPart))
            && String.eqb (default "" (split "." remainingPart !! 0)) "_").
  - destruct (2 <=? length (split "." remainingPart) - 1); [|by apply decoded_with_skipTopLevel].
    destruct (isValidLevelStyle (default "" (split "." remainingPart !! 1))) eqn:E1;
      destruct (isValidLevelStyle (default "" (split "." remainingPart !! (1 + 1)))) eqn:E2;
      auto using decoded_with_skipTopLevel, decoded_with_styleLevel1,
        decoded_with_styleLevelOther.
  - destruct (2 <=? length (split "." remainingPart) - 0); [|by apply decoded_with_skipTopLevel].
    destruct (isValidLevelStyle (default "" (split "." remainingPart !! 0))) eqn:E1;
      destruct (isValidLevelStyle (default "" (split "." remainingPart !! (0 + 1)))) eqn:E2;
      auto using decoded_with_skipTopLevel, decoded_with_styleLevel1,
        decoded_with_styleLevelOther.
Qed.

Lemma parsePart_decoded r (part : string) :
  str_forall (is_not ",") part = true ->
  decoded r -> decoded (parsePart r part).
Proof.
  intros Hcomma Hr. unfold parsePart.
  destruct (String.length (trim part) =? 0); [done |].
  pose proof (trim_forall _ _ Hcomma) as Hclean.
  assert (trimEnd (trim part) = trim part) as Hfix by apply trimEnd_idemp.
  unfold parseCleanPart.
  destruct (String.eqb (trim part) AUTO_PART_KEY); [by apply decoded_with_auto |].
  destruct (startsWith (trim part) FIRST_LEVEL_PART_KEY).
  { destruct (isValidFirstOrMaxLevel _) eqn:E; [by apply decoded_with_firstLevel | done]. }
  destruct (startsWith (trim part) MAX_LEVEL_PART_KEY).
  { destruct (isValidFirstOrMaxLevel _) eqn:E; [by apply decoded_with_maxLevel | done]. }
  destruct (startsWith (trim part) CONTENTS_PART_KEY).
  { destruct (String.length (trim part) <=? String.length CONTENTS_PART_KEY + 1); [done |].
    destruct (isValidContents _) eqn:E; [|done].
    apply decoded_with_contents; try done.
    - by apply substring_from_forall.
    - by apply trimEnd_fixed_substring_from. }
  apply parseFormattingPart_decoded; try done.
  intros c. apply trimEnd_last.
Qed.

Lemma fold_parts_decoded (parts : list string) r :
  Forall (fun p => str_forall (is_not ",") p = true) parts ->
  decoded r -> decoded (fold_left parsePart parts r).
Proof.
  intros Hparts. revert r. induction Hparts as [|p parts Hp _ IH]; intros r Hr; [done |].
  simpl. by apply IH, parsePart_decoded.
Qed.

Lemma parseCompactString_decoded (entryString : string) :
  tokens_round_trip -> decoded (parseCompactString entryString).
Proof.
  intros HT. apply fold_parts_decoded; [apply split_pieces | by apply decoded_default].
Qed.

(** *** The branches of the loop body *)

Lemma parsePart_by_kind (settings : NumberHeadingsPluginSettings) (part : string) :
  parsePart settings part
  = match classify (trim part) with
    | EmptyPart => settings
    | AutoPart => with_auto true settings
    | FirstLevelPart =>
        let n := parseInt (substring_from 12 (trim part)) in
        if isValidFirstOrMaxLevel (VNum n) then with_firstLevel n settings else settings
    | MaxLevelPart =>
        let n := parseInt (substring_from 4 (trim part)) in
        if isValidFirstOrMaxLevel (VNum n) then with_maxLevel n settings else settings
    | ContentsPart =>
        if String.length (trim part) <=? 9 then settings
        else
          let tocHeading := substring_from 9 (trim part) in
          if isValidContents tocHeading then with_contents tocHeading settings
          else settings
    | FormattingPart => parseFormattingPart settings (trim part)
    end.
Proof.
  unfold parsePart, parseCleanPart, classify.
  destruct (String.length (trim part) =? 0); [done |].
  destruct (String.eqb (trim part) AUTO_PART_KEY); [done |].
  destruct (startsWith (trim part) FIRST_LEVEL_PART_KEY); [done |].
  destruct (startsWith (trim part) MAX_LEVEL_PART_KEY); [done |].
  by destruct (startsWith (trim part) CONTENTS_PART_KEY).
Qed.

(** What the formatting branch does to each field. *)
Lemma parseFormattingPart_frame (settings : NumberHeadingsPluginSettings)
    (cleanPart : string) :
  let r := parseFormattingPart settings cleanPart in
  auto r = auto settings /\ firstLevel r = firstLevel settings
  /\ maxLevel r = maxLevel settings /\ contents r = contents settings
  /\ separator r
     = match last_char cleanPart with
       | Some c => if isValidSeparator (String c "") then String c "" else separator settings
       | None => separator settings
       end
  /\ (styleLevel1 r = styleLevel1 settings \/ isValidLevelStyle (styleLevel1 r) = true)
  /\ (styleLevelOther r = styleLevelOther settings
      \/ isValidLevelStyle (styleLevelOther r) = true).
Proof.
  unfold parseFormattingPart. rewrite char_at_last.
  destruct (last_char cleanPart) as [c|]; simpl fmap; cbv beta iota;
    [destruct (isValidSeparator (String c "")) |];
    repeat match goal with
      | |- context [if ?b then _ else _] => destruct b eqn:?
      end; simpl; auto 10.
Qed.

(** The formatting branch overwrites [skipTopLevel] with a value that the
    part alone determines. *)
Lemma parseFormattingPart_skipTopLevel (settings settings' : NumberHeadingsPluginSettings)
    (cleanPart : string) :
  skipTopLevel (parseFormattingPart settings cleanPart)
  = skipTopLevel (parseFormattingPart settings' cleanPart).
Proof.
  unfold parseFormattingPart. rewrite char_at_last.
  destruct (last_char cleanPart) as [c|]; simpl fmap; cbv beta iota;
    [destruct (isValidSeparator (String c "")) |];
    repeat match goal with
      | |- context [if ?b then _ else _] => destruct b eqn:?
      end; simpl; auto.
Qed.

Lemma fold_parts_field {A} (f : NumberHeadingsPluginSettings -> A)
    (parts : list string) (settings : NumberHeadingsPluginSettings) :
  Forall (fun p => forall s, f (parsePart s p) = f s) parts ->
  f (fold_left parsePart parts settings) = f settings.
Proof.
  intros H. revert settings. induction H as [|p parts Hp _ IH]; intros settings; [done |].
  simpl. by rewrite IH, Hp.
Qed.

Lemma fold_parts_kind {A} (f : NumberHeadingsPluginSettings -> A) (k : part_kind)
    (parts : list string) (settings : NumberHeadingsPluginSettings) :
  (forall p s, classify (trim p) <> k -> f (parsePart s p) = f s) ->
  k ∉ map (fun p => classify (trim p)) parts ->
  f (fold_left parsePart parts settings) = f settings.
Proof.
  intros Hk Hnot. apply fold_parts_field, Forall_forall. intros p Hp s. apply Hk.
  intros E. apply Hnot. rewrite <- E. by apply (list_elem_of_fmap_2 (fun p => classify (trim p))).
Qed.

(** *** The legacy entries *)

Lemma legacy_entry_read (fm : FrontMatterCache) (preferred deprecated : string) v :
  legacy_entry fm preferred deprecated v ->
  nullish (parseFrontMatterEntry fm preferred) (parseFrontMatterEntry fm deprecated) = v.
Proof.
  unfold parseFrontMatterEntry.
  intros [w Hp Hw | w [Hp | (u & Hp & Hu)] Hd | [Hp | (u & Hp & Hu)] Hd];
    rewrite Hp, ?Hd; try done.
  - by destruct w.
  - by destruct u.
  - by destruct u.
Qed.

Lemma isValidFlag_null : isValidFlag VNull = false.
Proof.
  destruct (isValidFlag VNull) eqn:E; [|done].
  by destruct (isValidFlag_guard _ E).
Qed.

Lemma isValidFirstOrMaxLevel_null : isValidFirstOrMaxLevel VNull = false.
Proof.
  destruct (isValidFirstOrMaxLevel VNull) eqn:E; [|done].
  by destruct (isValidFirstOrMaxLevel_guard _ E).
Qed.

Lemma as_boolean_guard v :
  isValidFlag v = true -> VBool (as_boolean v) = v.
Proof. intros H. by destruct (isValidFlag_guard _ H) as [b ->]. Qed.

Lemma as_number_guard v :
  isValidFirstOrMaxLevel v = true -> VNum (as_number v) = v.
Proof. intros H. by destruct (isValidFirstOrMaxLevel_guard _ H) as [n ->]. Qed.

End CodecFacts.

(** ** Facts on the editor *)

Section EditorFacts.

Local Open Scope nat_scope.

Lemma findLineLoop_Some (editor : Editor) (search : string) (i count k : nat) :
  findLineLoop editor search i count = Some k <->
  i <= k < i + count
  /\ startsWith (getLine editor k) search = true
  /\ forall j, i <= j < k -> startsWith (getLine editor j) search = false.
Proof.
  revert i. induction count as [|count IH]; intros i; simpl.
  - split; [done | lia].
  - destruct (startsWith (getLine editor i) search) eqn:E.
    + split.
      * intros [= <-]. repeat split; [lia | lia | done | lia].
      * intros (Hk & Hs & Hbefore). f_equal.
        destruct (decide (i = k)) as [|Hne]; [done |].
        rewrite Hbefore in E by lia. done.
    + rewrite IH. split.
      * intros (Hk & Hs & Hbefore). repeat split; [lia | lia | done |].
        intros j Hj. destruct (decide (j = i)) as [->|]; [done | apply Hbefore; lia].
      * intros (Hk & Hs & Hbefore).
        assert (i <> k) by (intros ->; congruence).
        repeat split; [lia | lia | done |]. intros j Hj. apply Hbefore. lia.
Qed.

Lemma findLineLoop_None (editor : Editor) (search : string) (i count : nat) :
  findLineLoop editor search i count = None <->
  forall j, i <= j < i + count -> startsWith (getLine editor j) search = false.
Proof.
  revert i. induction count as [|count IH]; intros i; simpl.
  - split; [lia | done].
  - destruct (startsWith (getLine editor i) search) eqn:E.
    + split; [done |]. intros H. rewrite H in E by lia. done.
    + rewrite IH. split.
      * intros H j Hj. destruct (decide (j = i)) as [->|]; [done | apply H; lia].
      * intros H j Hj. apply H. lia.
Qed.

Lemma findLineLoop_ext (editor editor' : Editor) (search : string) (i count : nat) :
  (forall j, i <= j < i + count ->
     startsWith (getLine editor j) search = startsWith (getLine editor' j) search) ->
  findLineLoop editor search i count = findLineLoop editor' search i count.
Proof.
  revert i. induction count as [|count IH]; intros i H; simpl; [done |].
  rewrite <- H by lia. rewrite IH; [done |]. intros j Hj. apply H. lia.
Qed.

Lemma posToOffset_start (text : string) : posToOffset text 0 0 = 0.
Proof. by destruct text. Qed.

Lemma split_cons_other sep x (s : string) :
  Ascii.eqb x sep = false ->
  exists h t, split sep s = h :: t /\ split sep (String x s) = String x h :: t.
Proof.
  intros Hx. simpl. rewrite Hx.
  destruct (split sep s) as [|h t] eqn:E; [by apply split_nonempty in E |].
  by exists h, t.
Qed.

(** Replacing the span from the start of line [k] to the start of the next
    line by one line of text changes line [k] and no other line. *)
Lemma replace_line (l text : string) (k : nat) :
  str_forall (is_not newline) l = true ->
  S k < length (split newline text) ->
  split newline
    (substring_to (posToOffset text k 0) text
       ++ (l ++ String newline "")
       ++ substring_from (posToOffset text (k + 1) 0) text)
  = <[k := l]> (split newline text).
Proof.
  intros Hl. revert k. induction text as [|x t IH]; intros k Hk; [simpl in Hk; lia |].
  destruct (Ascii.eqb x newline) eqn:Hx.
  - apply Ascii.eqb_eq in Hx as ->.
    change (split newline (String newline t)) with ("" :: split newline t) in *.
    destruct k as [|k]; simpl posToOffset; rewrite ?Ascii.eqb_refl.
    + rewrite posToOffset_start. simpl. rewrite append_assoc. simpl.
      by rewrite split_app.
    + simpl. rewrite ?Ascii.eqb_refl. f_equal. apply IH. simpl in Hk. lia.
  - destruct (split_cons_other newline x t Hx) as (h & tl & Et & Ext).
    rewrite Ext in *. simpl in Hk.
    destruct k as [|k]; simpl posToOffset; rewrite Hx.
    + specialize (IH 0). rewrite posToOffset_start in IH. simpl in IH.
      simpl. rewrite IH by (rewrite Et; simpl; lia). by rewrite Et.
    + simpl. rewrite Hx. rewrite IH by (rewrite Et; simpl; lia).
      by rewrite Et.
Qed.

Lemma join_split (s : string) : join (String newline "") (split newline s) = s.
Proof.
  induction s as [|x s IH]; [done |].
  destruct (Ascii.eqb x newline) eqn:Hx.
  - apply Ascii.eqb_eq in Hx as ->.
    change (split newline (String newline s)) with ("" :: split newline s).
    destruct (split newline s) as [|h t] eqn:E; [by apply split_nonempty in E |].
    change (join (String newline "") ("" :: h :: t))
      with (String newline (join (String newline "") (h :: t))).
    by rewrite IH.
  - destruct (split_cons_other newline x s Hx) as (h & t & Es & Exs).
    rewrite Exs. rewrite Es in IH. destruct t; simpl in *; by rewrite IH.
Qed.

Lemma editor_lines_inj (editor editor' : Editor) :
  lines editor = lines editor' -> editor = editor'.
Proof.
  destruct editor as [a], editor' as [b]. unfold lines. simpl. intros H.
  f_equal. by rewrite <- (join_split a), <- (join_split b), H.
Qed.

End EditorFacts.

(** * The claims *)

Section Claims.

Context `{ST : SettingsTypes}.

Lemma encoded_nonempty (r : NumberHeadingsPluginSettings) :
  String.eqb (settingsToCompactFrontMatterValue r) "" = false.
Proof. rewrite encoded_parts. by destruct (auto r). Qed.

(** C4. Round trip of the compact format: when the compact decoder yields
    the record [r] from the front matter [fm], decoding the string that the
    encoder writes for [r] yields [r] again, in all eight fields.  The
    validity predicates and the defaults come from [settingsTypes.ts];
    what the round trip needs of them is [tokens_round_trip]. *)
Theorem compact_round_trip (fm fm' : FrontMatterCache) (r : NumberHeadingsPluginSettings) :
  tokens_round_trip ->
  parseCompactFrontMatterSettings fm = Some r ->
  entries fm' !! "number headings" = Some (VStr (settingsToCompactFrontMatterValue r)) ->
  parseCompactFrontMatterSettings fm' = Some r.
Proof.
  intros HT Hr Hfm'. unfold parseCompactFrontMatterSettings in *.
  destruct (truthy (parseFrontMatterEntry fm "number headings")); [|done].
  injection Hr as <-.
  unfold parseFrontMatterEntry at 1 2. rewrite Hfm'. simpl truthy. simpl to_string.
  rewrite encoded_nonempty. simpl. f_equal.
  apply decode_encode; [done | by apply parseCompactString_decoded].
Qed.

(** C6. The example of the specification: with validity predicates that
    accept the levels 2 and 4, the contents heading, the styles and the
    separator of the example, the string decodes to the record and the
    record encodes to the string. *)
Theorem example_decodes_and_encodes (fm : FrontMatterCache) :
  isValidFirstOrMaxLevel (VNum (Num 2)) = true ->
  isValidFirstOrMaxLevel (VNum (Num 4)) = true ->
  isValidContents "Table of Contents" = true ->
  isValidLevelStyle "1" = true ->
  isValidLevelStyle "A" = true ->
  isValidSeparator "-" = true ->
  entries fm !! "number headings" = Some (VStr example_string) ->
  parseCompactFrontMatterSettings fm = Some example_record
  /\ settingsToCompactFrontMatterValue example_record = example_string.
Proof.
  intros H2 H4 Hc H1 HA Hs Hfm. split; [|reflexivity].
  unfold parseCompactFrontMatterSettings, parseFrontMatterEntry.
  rewrite Hfm. cbn [truthy to_string].
  change (negb (String.eqb example_string "")) with true. cbv iota.
  f_equal. unfold parseCompactString.
  change (split "," example_string) with
    ["auto"; " first-level 2"; " max 4"; " contents Table of Contents"; " _.1.A-"].
  cbn [fold_left].
  cbv -[isValidFirstOrMaxLevel isValidContents isValidLevelStyle isValidSeparator
        DEFAULT_SETTINGS].
  rewrite H2, H4, Hc, Hs, H1, HA.
  reflexivity.
Qed.

Lemma prefix_cons (a b : ascii) (s1 s2 : string) :
  String.prefix (String a s1) (String b s2) = Ascii.eqb a b && String.prefix s1 s2.
Proof.
  simpl. destruct (ascii_dec a b) as [-> | Hne].
  - by rewrite Ascii.eqb_refl.
  - apply Ascii.eqb_neq in Hne. by rewrite Hne.
Qed.

Lemma string_eqb_cons (a b : ascii) (s1 s2 : string) :
  String.eqb (String a s1) (String b s2) = Ascii.eqb a b && String.eqb s1 s2.
Proof. simpl. by destruct (Ascii.eqb a b). Qed.

(** A string that is not empty ends in a character. *)
Lemma snoc_cases (s : string) : s <> "" -> exists body c, s = body ++ String c "".
Proof.
  induction s as [|x s IH]; [done |]. intros _.
  destruct s as [|y s'].
  - by exists "", x.
  - destruct IH as (body & c & E); [done |]. exists (String x body), c.
    simpl. by rewrite <- E.
Qed.

(** The first of at least two dot-separated segments is [_] exactly when
    the text begins with [_.]. *)
Lemma descriptors_skip (s : string) :
  (1 <? length (split "." s))%nat && String.eqb (default "" (split "." s !! 0%nat)) "_"
  = startsWith s "_.".
Proof.
  unfold startsWith. destruct s as [|a s]; [reflexivity |].
  rewrite prefix_cons.
  destruct (Ascii.eqb a ".") eqn:Ha.
  - apply Ascii.eqb_eq in Ha as ->.
    change (split "." (String "." s)) with ("" :: split "." s).
    cbn [lookup list_lookup default from_option id].
    change (String.eqb "" "_") with false. by rewrite andb_false_r.
  - destruct (split_cons_other "." a s Ha) as (h & t & Es & ->).
    cbn [length lookup list_lookup default from_option id].
    rewrite string_eqb_cons, (Ascii.eqb_sym a "_").
    destruct (Ascii.eqb "_" a); [| by rewrite andb_false_r].
    rewrite !andb_true_l.
    destruct s as [|b s].
    + simpl in Es. by injection Es as <- <-.
    + rewrite prefix_cons. destruct (Ascii.eqb b ".") eqn:Hb.
      * apply Ascii.eqb_eq in Hb as ->.
        change (split "." (String "." s)) with ("" :: split "." s) in Es.
        injection Es as <- <-.
        destruct (split "." s) eqn:E; [by apply split_nonempty in E |].
        rewrite Ascii.eqb_refl. by destruct s.
      * destruct (split_cons_other "." b s Hb) as (h' & t' & _ & Es').
        rewrite Es' in Es. injection Es as <- <-.
        rewrite (Ascii.eqb_sym "." b), Hb. simpl. by rewrite andb_false_r.
Qed.

(** The value that the formatting branch gives [skipTopLevel]. *)
Lemma parseFormattingPart_skip_value (settings : NumberHeadingsPluginSettings)
    (body : string) (c : ascii) :
  skipTopLevel (parseFormattingPart settings (body ++ String c ""))
  = startsWith (if isValidSeparator (String c "") then body else body ++ String c "") "_.".
Proof.
  unfold parseFormattingPart.
  rewrite char_at_last, last_char_snoc, substring_to_snoc. simpl fmap. cbv beta iota.
  destruct (isValidSeparator (String c "")); rewrite <- descriptors_skip;
    match goal with
    | |- context [if ?b && ?b' then _ else _] => destruct (b && b')
    end;
    repeat match goal with
      | |- context [if ?b then _ else _] => destruct b eqn:?
      end; reflexivity.
Qed.

(** C2, as the code has it.  A part that reaches the formatting branch
    leaves [auto], [firstLevel], [maxLevel] and [contents] as they were and
    never stores an invalid level style; but it always overwrites
    [skipTopLevel], with a value that the part alone determines, and it
    overwrites [separator] whenever the last character of the part is a
    valid separator, whether or not the rest is a formatting descriptor.
    The value of [skipTopLevel]: such a part is not empty; with its last
    character [c] taken off when [c] is a valid separator, [skipTopLevel]
    is true exactly when what remains begins with [_.], which is to say
    that it has at least two dot-separated segments and the first is
    [_]. *)
Theorem formatting_part_effect (settings : NumberHeadingsPluginSettings)
    (cleanPart : string) :
  classify cleanPart = FormattingPart ->
  let r := parseCleanPart settings cleanPart in
  auto r = auto settings /\ firstLevel r = firstLevel settings
  /\ maxLevel r = maxLevel settings /\ contents r = contents settings
  /\ (forall settings', skipTopLevel r = skipTopLevel (parseCleanPart settings' cleanPart))
  /\ separator r
     = match last_char cleanPart with
       | Some c => if isValidSeparator (String c "") then String c "" else separator settings
       | None => separator settings
       end
  /\ (styleLevel1 r = styleLevel1 settings \/ isValidLevelStyle (styleLevel1 r) = true)
  /\ (styleLevelOther r = styleLevelOther settings
      \/ isValidLevelStyle (styleLevelOther r) = true)
  /\ (exists body c, cleanPart = body ++ String c "")
  /\ (forall body c,
        cleanPart = body ++ String c "" ->
        let remainingPart := if isValidSeparator (String c "") then body else cleanPart in
        skipTopLevel r = startsWith remainingPart "_."
        /\ (skipTopLevel r = true <->
            (1 < length (split "." remainingPart))%nat
            /\ split "." remainingPart !! 0%nat = Some "_")).
Proof.
  intros Hkind.
  assert (forall s, parseCleanPart s cleanPart = parseFormattingPart s cleanPart) as E.
  { intros s. unfold classify in Hkind. unfold parseCleanPart.
    destruct (String.length cleanPart =? 0)%nat; [done |].
    destruct (String.eqb cleanPart AUTO_PART_KEY); [done |].
    destruct (startsWith cleanPart FIRST_LEVEL_PART_KEY); [done |].
    destruct (startsWith cleanPart MAX_LEVEL_PART_KEY); [done |].
    by destruct (startsWith cleanPart CONTENTS_PART_KEY). }
  cbv zeta. rewrite E.
  destruct (parseFormattingPart_frame settings cleanPart) as (? & ? & ? & ? & ? & ? & ?).
  split; [done |]. split; [done |]. split; [done |]. split; [done |].
  split; [intros settings'; rewrite E; apply parseFormattingPart_skipTopLevel |].
  split; [done |]. split; [done |]. split; [done |].
  split.
  - apply snoc_cases. by intros ->.
  - intros body c ->.
    assert (skipTopLevel (parseFormattingPart settings (body ++ String c ""))
            = startsWith (if isValidSeparator (String c "") then body
                          else body ++ String c "") "_.") as Hskip
      by apply parseFormattingPart_skip_value.
    split; [exact Hskip |]. rewrite Hskip, <- descriptors_skip.
    rewrite andb_true_iff, Nat.ltb_lt, String.eqb_eq.
    generalize (if isValidSeparator (String c "") then body else body ++ String c "").
    intros rem. split; intros [Hlen Hfirst]; (split; [done |]).
    + destruct (split "." rem !! 0%nat) as [d |] eqn:Ed; simpl in Hfirst; by subst.
    + by rewrite Hfirst.
Qed.

(** C3, as the code has it.  A trimmed part is a first-level, max or
    contents token as soon as it begins with the bare key word; the
    character that follows the key word is skipped whatever it is, and the
    text after it is the value.  Only a part that is not [auto] and begins
    with none of the three key words reaches the formatting branch. *)
Theorem keyword_parts (settings : NumberHeadingsPluginSettings) (c : ascii)
    (rest : string) :
  parseCleanPart settings ("first-level" ++ String c rest)
  = (if isValidFirstOrMaxLevel (VNum (parseInt rest))
     then with_firstLevel (parseInt rest) settings else settings)
  /\ parseCleanPart settings ("max" ++ String c rest)
     = (if isValidFirstOrMaxLevel (VNum (parseInt rest))
        then with_maxLevel (parseInt rest) settings else settings)
  /\ parseCleanPart settings ("contents" ++ String c rest)
     = (if String.eqb rest "" then settings
        else if isValidContents rest then with_contents rest settings else settings)
  /\ parseCleanPart settings "first-level"
     = (if isValidFirstOrMaxLevel (VNum NaN) then with_firstLevel NaN settings
        else settings)
  /\ parseCleanPart settings "max"
     = (if isValidFirstOrMaxLevel (VNum NaN) then with_maxLevel NaN settings
        else settings)
  /\ parseCleanPart settings "contents" = settings
  /\ (forall cleanPart,
        cleanPart <> "auto" ->
        startsWith cleanPart "first-level" = false ->
        startsWith cleanPart "max" = false ->
        startsWith cleanPart "contents" = false ->
        parseCleanPart settings cleanPart = parseFormattingPart settings cleanPart).
Proof.
  split; [reflexivity |]. split; [reflexivity |].
  split; [unfold parseCleanPart; destruct rest; reflexivity |].
  split; [reflexivity |]. split; [reflexivity |]. split; [reflexivity |].
  intros cleanPart Hne E1 E2 E3.
  unfold parseCleanPart. apply String.eqb_neq in Hne.
  unfold AUTO_PART_KEY, FIRST_LEVEL_PART_KEY, MAX_LEVEL_PART_KEY, CONTENTS_PART_KEY.
  by rewrite Hne, E1, E2, E3.
Qed.

(** C5, as the code has it.  Defaults of the compact path.  When the
    [number headings] entry is a non-empty string, the result does not
    depend on the alternative settings, and a field that no part of the
    string sets has the value of the default record: [auto] without an
    [auto] part, [firstLevel], [maxLevel] and [contents] without a part of
    their key word, and the four formatting fields without a formatting
    part.  The empty string is left out: the guard of the decoder rejects
    it and the legacy path answers. *)
Theorem compact_defaults (fm : FrontMatterCache) (entryString : string)
    (alternativeSettings alternativeSettings' : NumberHeadingsPluginSettings) :
  entries fm !! "number headings" = Some (VStr entryString) ->
  entryString <> "" ->
  let r := getFrontMatterSettingsOrAlternative {| frontmatter := Some fm |}
             alternativeSettings in
  let kinds := map (fun p => classify (trim p)) (split "," entryString) in
  r = getFrontMatterSettingsOrAlternative {| frontmatter := Some fm |}
        alternativeSettings'
  /\ (forall A (f : NumberHeadingsPluginSettings -> A),
        Forall (fun p => forall s, f (parsePart s p) = f s) (split "," entryString) ->
        f r = f DEFAULT_SETTINGS)
  /\ (AutoPart ∉ kinds -> auto r = auto DEFAULT_SETTINGS)
  /\ (FirstLevelPart ∉ kinds -> firstLevel r = firstLevel DEFAULT_SETTINGS)
  /\ (MaxLevelPart ∉ kinds -> maxLevel r = maxLevel DEFAULT_SETTINGS)
  /\ (ContentsPart ∉ kinds -> contents r = contents DEFAULT_SETTINGS)
  /\ (FormattingPart ∉ kinds ->
      skipTopLevel r = skipTopLevel DEFAULT_SETTINGS
      /\ styleLevel1 r = styleLevel1 DEFAULT_SETTINGS
      /\ styleLevelOther r = styleLevelOther DEFAULT_SETTINGS
      /\ separator r = separator DEFAULT_SETTINGS).
Proof.
  intros Hfm Hne r kinds.
  assert (forall alt, getFrontMatterSettingsOrAlternative {| frontmatter := Some fm |} alt
                      = parseCompactString entryString) as E.
  { intros alt. unfold getFrontMatterSettingsOrAlternative, parseCompactFrontMatterSettings,
      parseFrontMatterEntry. simpl. rewrite Hfm. simpl.
    apply String.eqb_neq in Hne. by rewrite Hne. }
  subst r. rewrite !E. unfold parseCompactString.
  split; [done |]. split; [intros A f; apply fold_parts_field |].
  assert (forall s p k, classify (trim p) <> k ->
            match k with
            | AutoPart => auto (parsePart s p) = auto s
            | FirstLevelPart => firstLevel (parsePart s p) = firstLevel s
            | MaxLevelPart => maxLevel (parsePart s p) = maxLevel s
            | ContentsPart => contents (parsePart s p) = contents s
            | FormattingPart =>
                skipTopLevel (parsePart s p) = skipTopLevel s
                /\ styleLevel1 (parsePart s p) = styleLevel1 s
                /\ styleLevelOther (parsePart s p) = styleLevelOther s
                /\ separator (parsePart s p) = separator s
            | EmptyPart => True
            end) as Hframe.
  { intros s p k Hk. rewrite parsePart_by_kind.
    destruct (parseFormattingPart_frame s (trim p)) as (? & ? & ? & ? & _).
    destruct (classify (trim p)), k; try done; cbv zeta;
      repeat match goal with
        | |- context [if ?b then _ else _] => destruct b
        end; done. }
  split; [apply fold_parts_kind; intros p s Hk; apply (Hframe s p _ Hk) |].
  split; [apply fold_parts_kind; intros p s Hk; apply (Hframe s p _ Hk) |].
  split; [apply fold_parts_kind; intros p s Hk; apply (Hframe s p _ Hk) |].
  split; [apply fold_parts_kind; intros p s Hk; apply (Hframe s p _ Hk) |].
  intros Hnone.
  split; [|split; [|split]]; revert Hnone; apply fold_parts_kind; intros p s Hk;
    apply (Hframe s p _ Hk).
Qed.

(** C1, as the code has it.  The compact decoder answers, and the legacy
    keys and the alternative settings play no part, exactly when the
    [number headings] entry holds a truthy value, such as any non-empty
    string, well formed or not.  When the key is absent or holds a falsy
    value (the empty string, null, false, 0, NaN) the legacy path runs. *)
Theorem compact_or_legacy (fm : FrontMatterCache)
    (alternativeSettings : NumberHeadingsPluginSettings) :
  let entry := parseFrontMatterEntry fm "number headings" in
  let r := getFrontMatterSettingsOrAlternative {| frontmatter := Some fm |}
             alternativeSettings in
  (truthy entry = true ->
   r = parseCompactString (to_string entry)
   /\ forall fm' alternativeSettings',
       parseFrontMatterEntry fm' "number headings" = entry ->
       getFrontMatterSettingsOrAlternative {| frontmatter := Some fm' |}
         alternativeSettings' = r)
  /\ (truthy entry = false ->
      r = legacyFrontMatterSettings fm alternativeSettings).
Proof.
  cbv zeta. unfold getFrontMatterSettingsOrAlternative, parseCompactFrontMatterSettings.
  simpl. split; intros Ht.
  - rewrite Ht. split; [done |]. intros fm' alt' ->. by rewrite Ht.
  - by rewrite Ht.
Qed.

(** C9. The legacy path.  Each of the five legacy settings is read from
    its preferred key, or from the deprecated key when the preferred one
    has no value; a value that passes the validity predicate is the field,
    and otherwise, or when both keys are absent, the field is that of the
    alternative settings.  [firstLevel], [contents] and [separator] are
    those of the defaults.  (The style entries go through [String]; the
    string [null] that stands for an absent entry must not be a valid
    style.) *)
Theorem legacy_fields (fm : FrontMatterCache)
    (alternativeSettings : NumberHeadingsPluginSettings) :
  parseCompactFrontMatterSettings fm = None ->
  isValidLevelStyle "null" = false ->
  let r := getFrontMatterSettingsOrAlternative {| frontmatter := Some fm |}
             alternativeSettings in
  (forall v,
     legacy_entry fm "number-headings-skip-top-level" "header-numbering-skip-top-level" v ->
     if isValidFlag v then VBool (skipTopLevel r) = v
     else skipTopLevel r = skipTopLevel alternativeSettings)
  /\ (forall v,
       legacy_entry fm "number-headings-max-level" "header-numbering-max-level" v ->
       if isValidFirstOrMaxLevel v then VNum (maxLevel r) = v
       else maxLevel r = maxLevel alternativeSettings)
  /\ (forall v,
       legacy_entry fm "number-headings-style-level-1" "header-numbering-style-level-1" v ->
       if isValidLevelStyle (to_string v) then styleLevel1 r = to_string v
       else styleLevel1 r = styleLevel1 alternativeSettings)
  /\ (forall v,
       legacy_entry fm "number-headings-style-level-other"
         "header-numbering-style-level-other" v ->
       if isValidLevelStyle (to_string v) then styleLevelOther r = to_string v
       else styleLevelOther r = styleLevelOther alternativeSettings)
  /\ (forall v,
       legacy_entry fm "number-headings-auto" "header-numbering-auto" v ->
       if isValidFlag v then VBool (auto r) = v
       else auto r = auto alternativeSettings)
  /\ (entries fm !! "number-headings-skip-top-level" = None ->
      entries fm !! "header-numbering-skip-top-level" = None ->
      skipTopLevel r = skipTopLevel alternativeSettings)
  /\ (entries fm !! "number-headings-max-level" = None ->
      entries fm !! "header-numbering-max-level" = None ->
      maxLevel r = maxLevel alternativeSettings)
  /\ (entries fm !! "number-headings-style-level-1" = None ->
      entries fm !! "header-numbering-style-level-1" = None ->
      styleLevel1 r = styleLevel1 alternativeSettings)
  /\ (entries fm !! "number-headings-style-level-other" = None ->
      entries fm !! "header-numbering-style-level-other" = None ->
      styleLevelOther r = styleLevelOther alternativeSettings)
  /\ (entries fm !! "number-headings-auto" = None ->
      entries fm !! "header-numbering-auto" = None ->
      auto r = auto alternativeSettings)
  /\ firstLevel r = firstLevel DEFAULT_SETTINGS
  /\ contents r = contents DEFAULT_SETTINGS
  /\ separator r = separator DEFAULT_SETTINGS.
Proof.
  intros Hnone Hnull r.
  assert (r = legacyFrontMatterSettings fm alternativeSettings) as ->.
  { subst r. unfold getFrontMatterSettingsOrAlternative. simpl. by rewrite Hnone. }
  unfold legacyFrontMatterSettings. simpl.
  assert (forall p d, entries fm !! p = None -> entries fm !! d = None ->
                      legacy_entry fm p d VNull) as Habsent.
  { intros p d Hp Hd. apply entry_absent; [by left | done]. }
  split; [intros v Hv; rewrite (legacy_entry_read _ _ _ _ Hv);
          destruct (isValidFlag v) eqn:E; [by apply as_boolean_guard | done] |].
  split; [intros v Hv; rewrite (legacy_entry_read _ _ _ _ Hv);
          destruct (isValidFirstOrMaxLevel v) eqn:E; [by apply as_number_guard | done] |].
  split; [intros v Hv; rewrite (legacy_entry_read _ _ _ _ Hv);
          by destruct (isValidLevelStyle (to_string v)) |].
  split; [intros v Hv; rewrite (legacy_entry_read _ _ _ _ Hv);
          by destruct (isValidLevelStyle (to_string v)) |].
  split; [intros v Hv; rewrite (legacy_entry_read _ _ _ _ Hv);
          destruct (isValidFlag v) eqn:E; [by apply as_boolean_guard | done] |].
  split; [intros Hp Hd; rewrite (legacy_entry_read _ _ _ _ (Habsent _ _ Hp Hd));
          by rewrite isValidFlag_null |].
  split; [intros Hp Hd; rewrite (legacy_entry_read _ _ _ _ (Habsent _ _ Hp Hd));
          by rewrite isValidFirstOrMaxLevel_null |].
  split; [intros Hp Hd; rewrite (legacy_entry_read _ _ _ _ (Habsent _ _ Hp Hd));
          simpl; by rewrite Hnull |].
  split; [intros Hp Hd; rewrite (legacy_entry_read _ _ _ _ (Habsent _ _ Hp Hd));
          simpl; by rewrite Hnull |].
  split; [intros Hp Hd; rewrite (legacy_entry_read _ _ _ _ (Habsent _ _ Hp Hd));
          by rewrite isValidFlag_null |].
  done.
Qed.

End Claims.

(** ** The splice into the document *)

Section Splice.

Local Open Scope nat_scope.

Lemma save_key_defined (fm : FrontMatterCache)
    (settings : NumberHeadingsPluginSettings) (editor : Editor) :
  is_undefined (property fm "number headings") = false ->
  saveSettingsToFrontMatter {| frontmatter := Some fm |} settings editor
  = match findLineWhichStartsWith editor "number headings" (position_start_line fm) with
    | Some k =>
        (Normal tt,
         replaceRange
           (("number headings: " ++ settingsToCompactFrontMatterValue settings)
              ++ String newline "")
           {| line := k; ch := 0 |} {| line := k + 1; ch := 0 |} editor)
    | None => (Throw key_not_found_message, editor)
    end.
Proof.
  intros Hkey. unfold saveSettingsToFrontMatter. cbn [frontmatter]. cbv zeta.
  rewrite Hkey. cbn [negb]. unfold bind, read, edit, throw.
  destruct (findLineWhichStartsWith _ _ _); [by rewrite append_assoc | done].
Qed.

(** C7. When the metadata defines the [number headings] key and the scan
    from the start line of the block finds no line beginning with the key,
    [saveSettingsToFrontMatter] throws its error and the document is
    unchanged. *)
Theorem save_key_not_found (fm : FrontMatterCache)
    (settings : NumberHeadingsPluginSettings) (editor : Editor) :
  is_undefined (property fm "number headings") = false ->
  findLineWhichStartsWith editor "number headings" (position_start_line fm) = None ->
  saveSettingsToFrontMatter {| frontmatter := Some fm |} settings editor
  = (Throw key_not_found_message, editor).
Proof.
  intros Hkey Hscan. by rewrite save_key_defined, Hscan.
Qed.

(** C10. The scan looks at the lines from [afterLine] up to, but not
    including, the last line of the document.  So when no line but the
    last one begins with [number headings], the scan finds nothing and
    [saveSettingsToFrontMatter] throws, leaving the document as it was. *)
Theorem scan_excludes_last_line (fm : FrontMatterCache)
    (settings : NumberHeadingsPluginSettings) (editor : Editor) :
  is_undefined (property fm "number headings") = false ->
  (forall i, startsWith (getLine editor i) "number headings" = true ->
             i = lastLine editor) ->
  (forall search afterLine,
     findLineWhichStartsWith editor search afterLine = None <->
     forall j, afterLine <= j < lastLine editor ->
               startsWith (getLine editor j) search = false)
  /\ findLineWhichStartsWith editor "number headings" (position_start_line fm) = None
  /\ saveSettingsToFrontMatter {| frontmatter := Some fm |} settings editor
     = (Throw key_not_found_message, editor).
Proof.
  intros Hkey Honly.
  assert (forall search afterLine,
            findLineWhichStartsWith editor search afterLine = None <->
            forall j, afterLine <= j < lastLine editor ->
                      startsWith (getLine editor j) search = false) as Hscan.
  { intros search afterLine. unfold findLineWhichStartsWith. rewrite findLineLoop_None.
    split; intros H j Hj; apply H; lia. }
  assert (findLineWhichStartsWith editor "number headings" (position_start_line fm) = None)
    as Hnone.
  { apply Hscan. intros j Hj.
    destruct (startsWith (getLine editor j) "number headings") eqn:E; [|done].
    apply Honly in E. lia. }
  split; [done |]. split; [done |]. by rewrite save_key_defined, Hnone.
Qed.

(** C8, as the code has it.  When the metadata defines the key, the scan
    finds the line [k], and the encoded value holds no line break, then
    [saveSettingsToFrontMatter] replaces the span from the start of line
    [k] to the start of the next line by the new key line: line [k]
    becomes [number headings: value] and every other line is as before.
    Saving the same settings again leaves the document as the first save
    left it. *)
Theorem save_replaces_key_line (fm : FrontMatterCache)
    (settings : NumberHeadingsPluginSettings) (editor : Editor) (k : nat) :
  is_undefined (property fm "number headings") = false ->
  findLineWhichStartsWith editor "number headings" (position_start_line fm) = Some k ->
  str_forall (is_not newline) (settingsToCompactFrontMatterValue settings) = true ->
  let md := {| frontmatter := Some fm |} in
  let keyLine := "number headings: " ++ settingsToCompactFrontMatterValue settings in
  let editor' :=
    replaceRange (keyLine ++ String newline "")
      {| line := k; ch := 0 |} {| line := k + 1; ch := 0 |} editor in
  saveSettingsToFrontMatter md settings editor = (Normal tt, editor')
  /\ lines editor' = <[k := keyLine]> (lines editor)
  /\ saveSettingsToFrontMatter md settings editor' = (Normal tt, editor').
Proof.
  intros Hkey Hscan Hvalue md keyLine editor'.
  assert (forall e j, findLineWhichStartsWith e "number headings" (position_start_line fm)
                      = Some j ->
            saveSettingsToFrontMatter md settings e
            = (Normal tt, replaceRange (keyLine ++ String newline "")
                            {| line := j; ch := 0 |} {| line := j + 1; ch := 0 |} e))
    as Hsave.
  { intros e j Hj. subst md. by rewrite save_key_defined, Hj. }
  pose proof Hscan as Hfound. unfold findLineWhichStartsWith in Hfound.
  apply findLineLoop_Some in Hfound as (Hrange & Hstarts & Hbefore).
  assert (str_forall (is_not newline) keyLine = true) as Hline.
  { unfold keyLine. rewrite str_forall_app. by rewrite Hvalue. }
  assert (S k < length (lines editor)) as Hk by (unfold lastLine in Hrange; lia).
  assert (lines editor' = <[k := keyLine]> (lines editor)) as Hlines.
  { exact (replace_line keyLine (getValue editor) k Hline Hk). }
  split; [by apply Hsave |]. split; [done |].
  assert (findLineWhichStartsWith editor' "number headings" (position_start_line fm)
          = Some k) as Hscan'.
  { rewrite <- Hscan. unfold findLineWhichStartsWith.
    assert (lastLine editor' = lastLine editor) as ->.
    { unfold lastLine. by rewrite Hlines, length_insert. }
    symmetry. apply findLineLoop_ext. intros j Hj. unfold getLine. rewrite Hlines.
    destruct (decide (j = k)) as [->|Hne].
    - rewrite list_lookup_insert_eq by lia. simpl.
      unfold getLine in Hstarts. by rewrite Hstarts.
    - by rewrite list_lookup_insert_ne. }
  rewrite (Hsave _ _ Hscan'). f_equal. apply editor_lines_inj.
  assert (S k < length (lines editor')) as Hk' by (rewrite Hlines, length_insert; lia).
  assert (lines (replaceRange (keyLine ++ String newline "")
                   {| line := k; ch := 0 |} {| line := k + 1; ch := 0 |} editor')
          = <[k := keyLine]> (lines editor')) as ->
    by exact (replace_line keyLine (getValue editor') k Hline Hk').
  rewrite Hlines. by rewrite list_insert_insert_eq.
Qed.

End Splice.

(** * The claims on concrete inputs *)

#[local] Existing Instance Sample.settings_types.

Local Open Scope nat_scope.

(** The sample implementation meets what the round trip asks. *)
Lemma sample_tokens_round_trip : tokens_round_trip.
Proof.
  split; try reflexivity.
  intros s. simpl. unfold Sample.isValidLevelStyle.
  rewrite orb_true_iff, !String.eqb_eq. by intros [-> | ->].
Qed.

Lemma compact_round_trip_witness :
  parseCompactFrontMatterSettings
    (front_matter_of "number headings"
       (VStr (settingsToCompactFrontMatterValue example_record)))
  = Some example_record.
Proof.
  apply (compact_round_trip
           (front_matter_of "number headings"
              (VStr " max 4 ,auto,first-level 2,contents Table of Contents,_.1.A-,,"))).
  - exact sample_tokens_round_trip.
  - vm_compute. reflexivity.
  - vm_compute. reflexivity.
Defined.

Lemma example_decodes_and_encodes_witness :
  parseCompactFrontMatterSettings
    (front_matter_of "number headings" (VStr example_string)) = Some example_record
  /\ settingsToCompactFrontMatterValue example_record = example_string.
Proof.
  apply example_decodes_and_encodes; reflexivity.
Defined.

(** C1: a [number headings] entry that is present and empty.  The compact
    decoder gives nothing and the legacy path answers: the result takes
    [auto] from the legacy key, where decoding the empty string would have
    given the default. *)
Lemma empty_entry_runs_legacy :
  entries empty_entry_front_matter !! "number headings" = Some (VStr "")
  /\ parseCompactFrontMatterSettings empty_entry_front_matter = None
  /\ getFrontMatterSettingsOrAlternative
       {| frontmatter := Some empty_entry_front_matter |} DEFAULT_SETTINGS
     = legacyFrontMatterSettings empty_entry_front_matter DEFAULT_SETTINGS
  /\ auto (getFrontMatterSettingsOrAlternative
             {| frontmatter := Some empty_entry_front_matter |} DEFAULT_SETTINGS) = true
  /\ auto (parseCompactString "") = false.
Proof. repeat split; vm_compute; reflexivity. Qed.

Lemma no_dot_no_descriptor (part : string) :
  str_forall (is_not ".") part = true -> ~ spec_formatting_descriptor part.
Proof.
  intros Hdot (skip & s1 & s2 & sep & -> & _).
  rewrite !str_forall_app in Hdot. simpl in Hdot.
  by rewrite !andb_false_r in Hdot.
Qed.

(** C2: the parts [zzz] and [zzz-] are no formatting descriptors, yet the
    first resets [skipTopLevel] and the second sets [separator]. *)
Lemma unparseable_part_overwrites :
  (~ spec_formatting_descriptor "zzz" /\ classify "zzz" = FormattingPart)
  /\ skipTopLevel (parseCompactString "_.1.A") = true
  /\ skipTopLevel (parseCompactString "_.1.A, zzz") = false
  /\ (~ spec_formatting_descriptor "zzz-" /\ classify "zzz-" = FormattingPart)
  /\ separator (parseCompactString "1.A") = ""
  /\ separator (parseCompactString "1.A, zzz-") = "-".
Proof.
  repeat split; try (vm_compute; reflexivity); by apply no_dot_no_descriptor.
Qed.

(** C3: parts that begin with a bare key word and no space.  [max.4] sets
    [maxLevel], [contentsxy] sets [contents], and [max.7] is read as a max
    token too: it leaves [skipTopLevel] alone, which the formatting branch
    would have reset. *)
Lemma bare_keyword_is_token :
  maxLevel (parseCompactString "max.4") = Num 4
  /\ contents (parseCompactString "contentsxy") = "y"
  /\ parseCompactString "_.1.A, max.7" = parseCompactString "_.1.A"
  /\ skipTopLevel (parseCompactString "_.1.A, max.7") = true
  /\ skipTopLevel (parseFormattingPart (parseCompactString "_.1.A") "max.7") = false.
Proof. repeat split; vm_compute; reflexivity. Qed.

Lemma formatting_part_effect_witness :
  classify "zzz-" = FormattingPart
  /\ (let settings := with_skipTopLevel true DEFAULT_SETTINGS in
      let r := parseCleanPart settings "zzz-" in
      auto r = auto settings /\ firstLevel r = firstLevel settings
      /\ maxLevel r = maxLevel settings /\ contents r = contents settings
      /\ separator r = "-"
      /\ skipTopLevel r = startsWith "zzz" "_.").
Proof.
  split; [reflexivity |].
  destruct (formatting_part_effect (with_skipTopLevel true DEFAULT_SETTINGS) "zzz-" eq_refl)
    as (Ha & Hf & Hm & Hc & _ & Hs & _ & _ & _ & Hskip).
  cbv zeta. split; [exact Ha |]. split; [exact Hf |]. split; [exact Hm |].
  split; [exact Hc |]. split; [exact Hs |].
  exact (proj1 (Hskip "zzz" "-"%char eq_refl)).
Defined.

(** C5: the entry string that is empty.  It holds no token, yet the result
    is not the default record: the guard of the compact decoder rejects
    the empty string, the legacy path answers, and with no legacy key in
    the front matter [maxLevel] and [auto] are those of the alternative
    settings, so that two alternatives give two results. *)
Lemma empty_string_reads_alternative :
  map (fun p => classify (trim p)) (split "," "") = [EmptyPart]
  /\ maxLevel DEFAULT_SETTINGS = Num 6
  /\ auto DEFAULT_SETTINGS = false
  /\ maxLevel (getFrontMatterSettingsOrAlternative
                 {| frontmatter := Some (front_matter_of "number headings" (VStr "")) |}
                 example_record) = Num 4
  /\ auto (getFrontMatterSettingsOrAlternative
             {| frontmatter := Some (front_matter_of "number headings" (VStr "")) |}
             example_record) = true
  /\ maxLevel (getFrontMatterSettingsOrAlternative
                 {| frontmatter := Some (front_matter_of "number headings" (VStr "")) |}
                 DEFAULT_SETTINGS) = Num 6.
Proof. repeat split; vm_compute; reflexivity. Qed.

Lemma compact_defaults_witness :
  let r := getFrontMatterSettingsOrAlternative
             {| frontmatter := Some (front_matter_of "number headings" (VStr "max 4, 1.A")) |}
             example_record in
  maxLevel r = Num 4
  /\ auto r = auto DEFAULT_SETTINGS
  /\ firstLevel r = firstLevel DEFAULT_SETTINGS
  /\ contents r = contents DEFAULT_SETTINGS.
Proof.
  destruct (compact_defaults (front_matter_of "number headings" (VStr "max 4, 1.A"))
              "max 4, 1.A" example_record DEFAULT_SETTINGS)
    as (_ & _ & Ha & Hf & _ & Hc & _); [vm_compute; reflexivity | discriminate |].
  cbv zeta. split; [vm_compute; reflexivity |].
  split; [apply Ha | split; [apply Hf | apply Hc]];
    change (map (fun p => classify (trim p)) (split "," "max 4, 1.A"))
      with [MaxLevelPart; FormattingPart];
    intros H; repeat (apply elem_of_cons in H as [H | H]; [discriminate H |]);
    by apply elem_of_nil in H.
Defined.

Lemma save_key_not_found_witness :
  saveSettingsToFrontMatter {| frontmatter := Some key_front_matter |} example_record
    (editor_of_lines ["---"; "title: x"; "---"; "body"])
  = (Throw key_not_found_message, editor_of_lines ["---"; "title: x"; "---"; "body"]).
Proof.
  apply save_key_not_found; vm_compute; reflexivity.
Defined.

Lemma scan_excludes_last_line_witness :
  startsWith (getLine (editor_of_lines ["---"; "number headings: auto"]) 1)
    "number headings" = true
  /\ lastLine (editor_of_lines ["---"; "number headings: auto"]) = 1
  /\ saveSettingsToFrontMatter {| frontmatter := Some key_front_matter |} example_record
       (editor_of_lines ["---"; "number headings: auto"])
     = (Throw key_not_found_message, editor_of_lines ["---"; "number headings: auto"]).
Proof.
  split; [reflexivity |]. split; [reflexivity |].
  apply (scan_excludes_last_line key_front_matter example_record
           (editor_of_lines ["---"; "number headings: auto"])).
  - vm_compute. reflexivity.
  - intros i. unfold getLine.
    change (lines (editor_of_lines ["---"; "number headings: auto"]))
      with ["---"; "number headings: auto"].
    destruct i as [|[|i]]; [discriminate | reflexivity | discriminate].
Defined.

Lemma save_replaces_key_line_witness :
  let md := {| frontmatter := Some key_front_matter |} in
  let editor := editor_of_lines ["---"; "number headings: auto"; "---"; "body"] in
  let editor' := editor_of_lines ["---"; "number headings: " ++ example_string; "---"; "body"] in
  saveSettingsToFrontMatter md example_record editor = (Normal tt, editor')
  /\ saveSettingsToFrontMatter md example_record editor' = (Normal tt, editor').
Proof.
  destruct (save_replaces_key_line key_front_matter example_record
              (editor_of_lines ["---"; "number headings: auto"; "---"; "body"]) 1)
    as (H1 & _ & H2); [vm_compute; reflexivity ..|].
  split; [exact H1 | exact H2].
Defined.

(** C8: settings whose contents heading holds a line break.  The first
    save writes two lines for the key; the second save replaces the first
    of them only and so leaves a third line behind. *)
Lemma resave_with_line_break :
  let md := {| frontmatter := Some key_front_matter |} in
  let editor := editor_of_lines ["---"; "number headings: auto"; "---"; "body"] in
  let once := (saveSettingsToFrontMatter md two_line_settings editor).2 in
  let twice := (saveSettingsToFrontMatter md two_line_settings once).2 in
  (saveSettingsToFrontMatter md two_line_settings editor).1 = Normal tt
  /\ (saveSettingsToFrontMatter md two_line_settings once).1 = Normal tt
  /\ lines once
     = ["---"; "number headings: first-level 1, max 6, contents x"; "y, 1.1"; "---"; "body"]
  /\ lines twice
     = ["---"; "number headings: first-level 1, max 6, contents x"; "y, 1.1"; "y, 1.1";
        "---"; "body"].
Proof. repeat split; vm_compute; reflexivity. Qed.

Lemma legacy_fields_witness :
  let r := getFrontMatterSettingsOrAlternative
             {| frontmatter := Some legacy_front_matter |} example_record in
  VBool (auto r) = VBool true
  /\ VNum (maxLevel r) = VNum (Num 3)
  /\ styleLevel1 r = styleLevel1 example_record
  /\ skipTopLevel r = skipTopLevel example_record
  /\ firstLevel r = firstLevel DEFAULT_SETTINGS.
Proof.
  destruct (legacy_fields legacy_front_matter example_record)
    as (_ & Hmax & Hs1 & _ & Hauto & Hskip & _ & _ & _ & _ & Hfirst & _);
    [vm_compute; reflexivity | reflexivity |].
  cbv zeta.
  split; [apply (Hauto (VBool true)); apply entry_preferred; vm_compute; reflexivity |].
  split; [apply (Hmax (VNum (Num 3)));
          apply entry_deprecated; [left |]; vm_compute; reflexivity |].
  split; [apply (Hs1 (VStr "B")); apply entry_preferred; vm_compute; reflexivity |].
  split; [apply Hskip; vm_compute; reflexivity | exact Hfirst].
Defined.

(** * Further properties of the module *)

#[local] Remove Hints Sample.settings_types : typeclass_instances.

(** ** More facts on the string primitives *)

Section MoreJsFacts.

Lemma split_app_any sep (a b : string) :
  split sep (a ++ String sep b) = (split sep a ++ split sep b)%list.
Proof.
  induction a as [|c a IH]; simpl.
  - by rewrite Ascii.eqb_refl.
  - rewrite IH. destruct (Ascii.eqb c sep); [done |].
    destruct (split sep a) as [|h t] eqn:E; [by apply split_nonempty in E | done].
Qed.

Lemma split_forall P sep (s : string) :
  str_forall P s = true ->
  Forall (fun p => str_forall P p = true) (split sep s).
Proof.
  induction s as [|c s IH]; simpl; [by repeat constructor |].
  rewrite andb_true_iff. intros [Hc Hs]. specialize (IH Hs).
  destruct (Ascii.eqb c sep); [by constructor |].
  destruct (split sep s) as [|h t]; [by repeat constructor; simpl; rewrite Hc |].
  inversion IH as [|? ? Hh Ht]; subst. constructor; [|done].
  simpl. by rewrite Hc, Hh.
Qed.

Lemma substring_to_forall P n (s : string) :
  str_forall P s = true -> str_forall P (substring_to n s) = true.
Proof.
  revert s. induction n as [|n IH]; intros s; [by destruct s |].
  destruct s as [|c s]; simpl; [done |].
  rewrite !andb_true_iff. intros [Hc Hs]. auto.
Qed.

Lemma substring_from_length n (s : string) :
  String.length (substring_from n s) = (String.length s - n)%nat.
Proof.
  revert s. induction n as [|n IH]; intros s; [destruct s; simpl; lia |].
  destruct s as [|c s]; simpl; [done | apply IH].
Qed.

Lemma trimStart_white_space (l x : string) :
  str_forall is_white_space l = true -> trimStart (l ++ x) = trimStart x.
Proof.
  induction l as [|c l IH]; simpl; [done |].
  rewrite andb_true_iff. intros [-> Hl]. auto.
Qed.

Lemma trimStart_empty (x : string) :
  trimStart x = "" <-> str_forall is_white_space x = true.
Proof.
  induction x as [|c x IH]; simpl; [done |].
  destruct (is_white_space c); simpl; [done |]. split; discriminate.
Qed.

Lemma trimStart_app (x r : string) :
  trimStart x <> "" -> trimStart (x ++ r) = trimStart x ++ r.
Proof.
  induction x as [|c x IH]; simpl; [done |].
  destruct (is_white_space c); [apply IH | done].
Qed.

Lemma trimEnd_white_space (r : string) :
  str_forall is_white_space r = true -> trimEnd r = "".
Proof.
  induction r as [|c r IH]; simpl; [done |].
  rewrite andb_true_iff. intros [-> Hr]. by rewrite IH.
Qed.

Lemma trimEnd_app_white_space (x r : string) :
  str_forall is_white_space r = true -> trimEnd (x ++ r) = trimEnd x.
Proof.
  intros Hr. induction x as [|c x IH]; simpl; [by apply trimEnd_white_space |].
  by rewrite IH.
Qed.

(** White space around a string does not change what [trim] gives. *)
Lemma trim_padded (l p r : string) :
  str_forall is_white_space l = true -> str_forall is_white_space r = true ->
  trim (l ++ p ++ r) = trim p.
Proof.
  intros Hl Hr. unfold trim. rewrite trimStart_white_space by done.
  destruct (trimStart p) as [|c q] eqn:E.
  - apply trimStart_empty in E.
    rewrite trimStart_white_space by done.
    apply trimStart_empty in Hr. by rewrite Hr.
  - rewrite trimStart_app by (by rewrite E). rewrite E.
    by apply trimEnd_app_white_space.
Qed.

Lemma trim_white_space (p : string) :
  str_forall is_white_space p = true -> trim p = "".
Proof. intros H. unfold trim. apply trimStart_empty in H. by rewrite H. Qed.

End MoreJsFacts.

(** ** More facts on the decoder *)

Section MoreCodecFacts.

Context `{ST : SettingsTypes}.

Local Open Scope nat_scope.

(** The fields that a part of another kind leaves alone. *)
Lemma parsePart_frame (s : NumberHeadingsPluginSettings) (p : string) (k : part_kind) :
  classify (trim p) <> k ->
  match k with
  | AutoPart => auto (parsePart s p) = auto s
  | FirstLevelPart => firstLevel (parsePart s p) = firstLevel s
  | MaxLevelPart => maxLevel (parsePart s p) = maxLevel s
  | ContentsPart => contents (parsePart s p) = contents s
  | FormattingPart =>
      skipTopLevel (parsePart s p) = skipTopLevel s
      /\ styleLevel1 (parsePart s p) = styleLevel1 s
      /\ styleLevelOther (parsePart s p) = styleLevelOther s
      /\ separator (parsePart s p) = separator s
  | EmptyPart => True
  end.
Proof.
  intros Hk. rewrite parsePart_by_kind.
  destruct (parseFormattingPart_frame s (trim p)) as (? & ? & ? & ? & _).
  destruct (classify (trim p)), k; try done; cbv zeta;
    repeat match goal with
      | |- context [if ?b then _ else _] => destruct b
      end; done.
Qed.

(** Each field of the result depends on the same field of the settings
    before the part, and on no other field. *)
Lemma parseFormattingPart_local (s s' : NumberHeadingsPluginSettings) (c : string) :
  let r := parseFormattingPart s c in
  let r' := parseFormattingPart s' c in
  (skipTopLevel r = skipTopLevel r')
  /\ (firstLevel s = firstLevel s' -> firstLevel r = firstLevel r')
  /\ (maxLevel s = maxLevel s' -> maxLevel r = maxLevel r')
  /\ (styleLevel1 s = styleLevel1 s' -> styleLevel1 r = styleLevel1 r')
  /\ (styleLevelOther s = styleLevelOther s' -> styleLevelOther r = styleLevelOther r')
  /\ (auto s = auto s' -> auto r = auto r')
  /\ (separator s = separator s' -> separator r = separator r')
  /\ (contents s = contents s' -> contents r = contents r').
Proof.
  unfold parseFormattingPart. rewrite char_at_last.
  destruct (last_char c) as [x|]; simpl fmap; cbv beta iota;
    [destruct (isValidSeparator (String x "")) |];
    repeat match goal with
      | |- context [if ?b then _ else _] => destruct b eqn:?
      end; simpl; auto 10.
Qed.

Lemma parsePart_local (s s' : NumberHeadingsPluginSettings) (p : string) :
  let r := parsePart s p in
  let r' := parsePart s' p in
  (skipTopLevel s = skipTopLevel s' -> skipTopLevel r = skipTopLevel r')
  /\ (firstLevel s = firstLevel s' -> firstLevel r = firstLevel r')
  /\ (maxLevel s = maxLevel s' -> maxLevel r = maxLevel r')
  /\ (styleLevel1 s = styleLevel1 s' -> styleLevel1 r = styleLevel1 r')
  /\ (styleLevelOther s = styleLevelOther s' -> styleLevelOther r = styleLevelOther r')
  /\ (auto s = auto s' -> auto r = auto r')
  /\ (separator s = separator s' -> separator r = separator r')
  /\ (contents s = contents s' -> contents r = contents r').
Proof.
  cbv zeta. rewrite !parsePart_by_kind.
  destruct (parseFormattingPart_local s s' (trim p)) as (? & ? & ? & ? & ? & ? & ? & ?).
  destruct (classify (trim p)); cbv zeta;
    repeat match goal with
      | |- context [if ?b then _ else _] => destruct b
      end; simpl; auto 10.
Qed.

Lemma parseFormattingPart_idemp (s : NumberHeadingsPluginSettings) (c : string) :
  parseFormattingPart (parseFormattingPart s c) c = parseFormattingPart s c.
Proof.
  unfold parseFormattingPart. rewrite char_at_last.
  destruct (last_char c) as [x|]; simpl fmap; cbv beta iota;
    [destruct (isValidSeparator (String x "")) |];
    repeat match goal with
      | |- context [if ?b then _ else _] => destruct b eqn:?
      end; reflexivity.
Qed.

Lemma fold_parts_invariant (P : NumberHeadingsPluginSettings -> Prop)
    (Q : string -> Prop) (parts : list string) (s : NumberHeadingsPluginSettings) :
  (forall s p, Q p -> P s -> P (parsePart s p)) ->
  Forall Q parts -> P s -> P (fold_left parsePart parts s).
Proof.
  intros Hstep Hparts. revert s.
  induction Hparts as [|p parts Hp _ IH]; intros s Hs; [done |].
  simpl. by apply IH, Hstep.
Qed.

Lemma parsePart_auto_field (s : NumberHeadingsPluginSettings) (p : string) :
  auto (parsePart s p)
  = match classify (trim p) with AutoPart => true | _ => auto s end.
Proof.
  rewrite parsePart_by_kind.
  destruct (parseFormattingPart_frame s (trim p)) as (? & _).
  destruct (classify (trim p)); try done; cbv zeta;
    repeat match goal with
      | |- context [if ?b then _ else _] => destruct b
      end; done.
Qed.

Lemma fold_parts_auto (parts : list string) (s : NumberHeadingsPluginSettings) :
  auto (fold_left parsePart parts s) = true <->
  AutoPart ∈ map (fun p => classify (trim p)) parts \/ auto s = true.
Proof.
  revert s. induction parts as [|p parts IH]; intros s; simpl.
  - split; [by right | intros [H | H]; [by apply elem_of_nil in H | done]].
  - rewrite IH, parsePart_auto_field, elem_of_cons.
    destruct (classify (trim p)); split; intros H; try tauto;
      destruct H as [[H | H] | H]; try discriminate H; tauto.
Qed.

Lemma parsePart_default_or_valid (s : NumberHeadingsPluginSettings) (p : string) :
  str_forall (is_not ",") p = true ->
  default_or_valid s -> default_or_valid (parsePart s p).
Proof.
  intros Hcomma (Ha & Hf & Hm & Hc & H1 & H2 & Hs).
  rewrite parsePart_by_kind. unfold default_or_valid.
  destruct (classify (trim p)) eqn:Hkind; cbv zeta.
  - done.
  - unfold with_auto. cbn [auto firstLevel maxLevel contents styleLevel1
                           styleLevelOther separator].
    repeat split; first [assumption | by left].
  - generalize dependent (parseInt (substring_from 12 (trim p))). intros n.
    destruct (isValidFirstOrMaxLevel (VNum n)) eqn:E; [|done].
    unfold with_firstLevel. cbn [auto firstLevel maxLevel contents styleLevel1
                                 styleLevelOther separator].
    repeat split; first [assumption | by right].
  - generalize dependent (parseInt (substring_from 4 (trim p))). intros n.
    destruct (isValidFirstOrMaxLevel (VNum n)) eqn:E; [|done].
    unfold with_maxLevel. cbn [auto firstLevel maxLevel contents styleLevel1
                               styleLevelOther separator].
    repeat split; first [assumption | by right].
  - destruct (String.length (trim p) <=? 9) eqn:El; [done |].
    assert (substring_from 9 (trim p) <> "") as Hne.
    { intros E0. apply (f_equal String.length) in E0.
      rewrite substring_from_length in E0. simpl in E0. apply Nat.leb_gt in El. lia. }
    destruct (isValidContents (substring_from 9 (trim p))) eqn:E; [|done].
    unfold with_contents. cbn [auto firstLevel maxLevel contents styleLevel1
                               styleLevelOther separator].
    repeat split; first [assumption | by right].
  - pose proof (parseFormattingPart_frame s (trim p)) as Hframe. cbv zeta in Hframe.
    destruct Hframe as (Ea & Ef & Em & Ec & Es & E1 & E2).
    rewrite Ea, Ef, Em, Ec.
    repeat split; try done.
    + destruct E1 as [-> | E1]; [assumption | by right].
    + destruct E2 as [-> | E2]; [assumption | by right].
    + rewrite Es. destruct (last_char (trim p)) as [c|]; [|done].
      destruct (isValidSeparator (String c "")) eqn:E; [|done]. right. by rewrite E.
Qed.

Lemma parseCompactString_default_or_valid (entryString : string) :
  default_or_valid (parseCompactString entryString).
Proof.
  apply (fold_parts_invariant default_or_valid
           (fun p => str_forall (is_not ",") p = true)).
  - intros s p. apply parsePart_default_or_valid.
  - apply split_pieces.
  - unfold default_or_valid. tauto.
Qed.

End MoreCodecFacts.

(** ** Properties of the decoder and the encoder *)

Section CodecProperties.

Context `{ST : SettingsTypes}.

Local Open Scope nat_scope.

Lemma kind_eqb_eq (a b : part_kind) : kind_eqb a b = true <-> a = b.
Proof. by destruct a, b. Qed.

(** A field that only the parts of kind [k] write, and that they write
    from its own earlier value, is decided by those parts. *)
Lemma fold_parts_of_kind {A} (f : NumberHeadingsPluginSettings -> A) (k : part_kind)
    (parts : list string) (s : NumberHeadingsPluginSettings) :
  (forall s p, classify (trim p) <> k -> f (parsePart s p) = f s) ->
  (forall s s' p, f s = f s' -> f (parsePart s p) = f (parsePart s' p)) ->
  f (fold_left parsePart parts s) = f (fold_left parsePart (parts_of_kind k parts) s).
Proof.
  intros Hframe Hlocal.
  assert (forall s s', f s = f s' ->
            f (fold_left parsePart parts s)
            = f (fold_left parsePart (parts_of_kind k parts) s')) as H; [|by apply H].
  induction parts as [|p parts IH]; intros s0 s0' E; [done |].
  unfold parts_of_kind. cbn [List.filter fold_left].
  destruct (kind_eqb (classify (trim p)) k) eqn:Hk.
  - cbn [fold_left]. apply IH. by apply Hlocal.
  - apply IH. rewrite Hframe; [done |].
    intros Heq. apply kind_eqb_eq in Heq. congruence.
Qed.

Lemma classify_auto (cleanPart : string) :
  classify cleanPart = AutoPart <-> cleanPart = "auto".
Proof.
  unfold classify. split.
  - destruct (String.length cleanPart =? 0); [done |].
    destruct (String.eqb_spec cleanPart AUTO_PART_KEY) as [-> | _]; [done |].
    by repeat destruct (startsWith _ _).
  - by intros ->.
Qed.

Lemma decode_last_part (a p : string) :
  str_forall (is_not ",") p = true ->
  parseCompactString (a ++ "," ++ p) = parsePart (parseCompactString a) p.
Proof.
  intros Hp. unfold parseCompactString.
  change ("," ++ p) with (String "," p).
  by rewrite split_app_any, fold_left_app, (split_none "," p Hp).
Qed.

Lemma parsePart_string_fields (P : ascii -> bool) (s : NumberHeadingsPluginSettings)
    (p : string) :
  str_forall P p = true -> string_fields P s -> string_fields P (parsePart s p).
Proof.
  intros Hp (Hc & H1 & H2 & Hs).
  pose proof (trim_forall P p Hp) as Hclean.
  assert (forall rem i, str_forall P rem = true ->
            str_forall P (default "" (split "." rem !! i)) = true) as Hdesc.
  { intros rem i Hrem. destruct (split "." rem !! i) as [x|] eqn:E; [|done].
    pose proof (split_forall P "." rem Hrem) as Hall.
    rewrite Forall_forall in Hall. apply Hall. by eapply list_elem_of_lookup_2. }
  rewrite parsePart_by_kind.
  destruct (classify (trim p)); cbv zeta; unfold string_fields.
  - done.
  - done.
  - by destruct (isValidFirstOrMaxLevel _).
  - by destruct (isValidFirstOrMaxLevel _).
  - destruct (String.length (trim p) <=? 9); [done |].
    destruct (isValidContents _); [|done].
    unfold with_contents. cbn [contents styleLevel1 styleLevelOther separator].
    repeat split; try done. by apply substring_from_forall.
  - unfold parseFormattingPart. rewrite char_at_last.
    assert (str_forall P (substring_to (String.length (trim p) - 1) (trim p)) = true)
      as Hrem by (by apply substring_to_forall).
    destruct (last_char (trim p)) as [x|] eqn:Elast; simpl fmap; cbv beta iota.
    + assert (str_forall P (String x "") = true) as Hx.
      { simpl. by rewrite (str_forall_last P _ _ Hclean Elast). }
      destruct (isValidSeparator (String x ""));
        repeat match goal with
          | |- context [if ?b then _ else _] => destruct b eqn:?
          end; simpl; repeat split; first [assumption | by apply Hdesc].
    + repeat match goal with
        | |- context [if ?b then _ else _] => destruct b eqn:?
        end; simpl; repeat split; first [assumption | by apply Hdesc].
Qed.

(** X1.  What the compact decoder returns holds, in every field, either
    the default or a value that passed its validity predicate; a separator
    that is not the default is one valid character, and contents that are
    not the default are not empty. *)
Theorem decoded_fields_default_or_valid (fm : FrontMatterCache)
    (r : NumberHeadingsPluginSettings) :
  parseCompactFrontMatterSettings fm = Some r -> default_or_valid r.
Proof.
  unfold parseCompactFrontMatterSettings.
  destruct (truthy _); [|done]. intros [= <-].
  apply parseCompactString_default_or_valid.
Qed.

(** X2.  The decoded record is decided, kind by kind, by the parts of
    that kind in their order: two entry strings that have, for each of the
    five branches that write (auto, first-level, max, contents, formatting),
    the same parts of that kind in the same order decode to the same
    record.  Parts can so be moved past parts of other kinds, and empty
    parts added or dropped, without changing the decoded record. *)
Theorem decoded_record_by_kind (entryString entryString' : string) :
  (forall k, k <> EmptyPart ->
     parts_of_kind k (split "," entryString) = parts_of_kind k (split "," entryString')) ->
  parseCompactString entryString = parseCompactString entryString'.
Proof.
  intros Hparts. unfold parseCompactString.
  assert (forall A (f : NumberHeadingsPluginSettings -> A) k,
            k <> EmptyPart ->
            (forall s p, classify (trim p) <> k -> f (parsePart s p) = f s) ->
            (forall s s' p, f s = f s' -> f (parsePart s p) = f (parsePart s' p)) ->
            f (fold_left parsePart (split "," entryString) DEFAULT_SETTINGS)
            = f (fold_left parsePart (split "," entryString') DEFAULT_SETTINGS)) as Hfield.
  { intros A f k Hk Hframe Hlocal.
    rewrite (fold_parts_of_kind f k (split "," entryString) _ Hframe Hlocal).
    rewrite (fold_parts_of_kind f k (split "," entryString') _ Hframe Hlocal).
    by rewrite (Hparts k Hk). }
  apply settings_ext.
  - apply (Hfield _ skipTopLevel FormattingPart); [done | |].
    + intros s0 p0 H. by destruct (parsePart_frame s0 p0 FormattingPart H).
    + intros s0 s0' p0. apply (parsePart_local s0 s0' p0).
  - apply (Hfield _ firstLevel FirstLevelPart); [done | |].
    + intros s0 p0 H. exact (parsePart_frame s0 p0 FirstLevelPart H).
    + intros s0 s0' p0. apply (parsePart_local s0 s0' p0).
  - apply (Hfield _ maxLevel MaxLevelPart); [done | |].
    + intros s0 p0 H. exact (parsePart_frame s0 p0 MaxLevelPart H).
    + intros s0 s0' p0. apply (parsePart_local s0 s0' p0).
  - apply (Hfield _ styleLevel1 FormattingPart); [done | |].
    + intros s0 p0 H. by destruct (parsePart_frame s0 p0 FormattingPart H) as (_ & ? & _).
    + intros s0 s0' p0. apply (parsePart_local s0 s0' p0).
  - apply (Hfield _ styleLevelOther FormattingPart); [done | |].
    + intros s0 p0 H.
      by destruct (parsePart_frame s0 p0 FormattingPart H) as (_ & _ & ? & _).
    + intros s0 s0' p0. apply (parsePart_local s0 s0' p0).
  - apply (Hfield _ auto AutoPart); [done | |].
    + intros s0 p0 H. exact (parsePart_frame s0 p0 AutoPart H).
    + intros s0 s0' p0. apply (parsePart_local s0 s0' p0).
  - apply (Hfield _ separator FormattingPart); [done | |].
    + intros s0 p0 H.
      by destruct (parsePart_frame s0 p0 FormattingPart H) as (_ & _ & _ & ?).
    + intros s0 s0' p0. apply (parsePart_local s0 s0' p0).
  - apply (Hfield _ contents ContentsPart); [done | |].
    + intros s0 p0 H. exact (parsePart_frame s0 p0 ContentsPart H).
    + intros s0 s0' p0. apply (parsePart_local s0 s0' p0).
Qed.

(** X3.  A part that is repeated changes nothing the second time. *)
Theorem repeated_part_changes_nothing (s : NumberHeadingsPluginSettings) (p : string) :
  parsePart (parsePart s p) p = parsePart s p.
Proof.
  rewrite !parsePart_by_kind.
  destruct (classify (trim p)); cbv zeta; try reflexivity.
  - by destruct (isValidFirstOrMaxLevel _).
  - by destruct (isValidFirstOrMaxLevel _).
  - destruct (String.length (trim p) <=? 9); [done |]. by destruct (isValidContents _).
  - apply parseFormattingPart_idemp.
Qed.

(** X4.  The decoder turns [auto] on and never off: the decoded [auto] is
    true exactly when some part of the entry string is [auto] once trimmed,
    or the default is true. *)
Theorem auto_on_iff_auto_part (entryString : string) :
  auto (parseCompactString entryString) = true <->
  (exists p, p ∈ split "," entryString /\ trim p = "auto")
  \/ auto DEFAULT_SETTINGS = true.
Proof.
  unfold parseCompactString. rewrite fold_parts_auto.
  assert (AutoPart ∈ map (fun p => classify (trim p)) (split "," entryString) <->
          exists p, p ∈ split "," entryString /\ trim p = "auto") as ->; [|done].
  rewrite (list_elem_of_fmap (fun p => classify (trim p))). split.
  - intros (p & Hk & Hp). exists p. split; [done |]. by apply classify_auto.
  - intros (p & Hp & Hk). exists p. split; [|done]. symmetry. by apply classify_auto.
Qed.

(** X5.  Decoding goes from left to right: the record for [a,b] is what
    the loop makes of the parts of [b] when it starts from the record for
    [a]. *)
Theorem decode_is_sequential (a b : string) :
  parseCompactString (a ++ "," ++ b)
  = fold_left parsePart (split "," b) (parseCompactString a).
Proof.
  unfold parseCompactString. change ("," ++ b) with (String "," b).
  by rewrite split_app_any, fold_left_app.
Qed.

(** X6.  A level token at the end overrides: after any string, a
    [first-level] or [max] token with a valid level sets that level and
    leaves the other fields as the string before it decoded. *)
Theorem later_level_token_overrides (a : string) (n : number) :
  isValidFirstOrMaxLevel (VNum n) = true ->
  parseCompactString (a ++ ", first-level " ++ number_to_string n)
  = with_firstLevel n (parseCompactString a)
  /\ parseCompactString (a ++ ", max " ++ number_to_string n)
     = with_maxLevel n (parseCompactString a).
Proof.
  intros Hn. split.
  - change (", first-level " ++ number_to_string n)
      with ("," ++ " " ++ "first-level " ++ number_to_string n).
    rewrite decode_last_part by (simpl; apply number_to_string_no_comma).
    change (parsePart ?s (" " ++ ?p)) with (parsePart s p).
    by rewrite parsePart_firstLevel, Hn.
  - change (", max " ++ number_to_string n)
      with ("," ++ " " ++ "max " ++ number_to_string n).
    rewrite decode_last_part by (simpl; apply number_to_string_no_comma).
    change (parsePart ?s (" " ++ ?p)) with (parsePart s p).
    by rewrite parsePart_maxLevel, Hn.
Qed.

(** X7.  A contents token at the end overrides: a valid heading without a
    comma and without white space at its end becomes the contents, and the
    other fields stay as the string before it decoded. *)
Theorem later_contents_token_overrides (a c : string) :
  c <> "" -> trimEnd c = c -> str_forall (is_not ",") c = true ->
  isValidContents c = true ->
  parseCompactString (a ++ ", contents " ++ c)
  = with_contents c (parseCompactString a).
Proof.
  intros Hne Hfix Hcomma Hv.
  change (", contents " ++ c) with ("," ++ " " ++ "contents " ++ c).
  rewrite decode_last_part by (simpl; exact Hcomma).
  change (parsePart ?s (" " ++ ?p)) with (parsePart s p).
  by rewrite parsePart_contents, Hv.
Qed.

(** X8.  A formatting token at the end sets [skipTopLevel] and the two
    styles as written.  With a separator character it sets the separator;
    without one it leaves the separator that the string before it decoded
    to: a later token cannot take a separator away. *)
Theorem later_formatting_token (a : string) (skip : bool) (s1 s2 sep : string) :
  style_token s1 = true -> style_token s2 = true ->
  isValidLevelStyle s1 = true -> isValidLevelStyle s2 = true ->
  sep = "" \/ (exists c, sep = String c "" /\ isValidSeparator (String c "") = true
                         /\ is_white_space c = false /\ is_not "," c = true) ->
  parseCompactString (a ++ ", " ++ skip_marker skip ++ s1 ++ "." ++ s2 ++ sep)
  = with_styleLevelOther s2
      (with_styleLevel1 s1
         (with_skipTopLevel skip
            (if String.eqb sep "" then parseCompactString a
             else with_separator sep (parseCompactString a)))).
Proof.
  intros Ht1 Ht2 Hv1 Hv2 Hsep.
  destruct (style_token_facts _ Ht1) as (_ & Hp1 & _).
  destruct (style_token_facts _ Ht2) as (_ & Hp2 & _).
  change (", " ++ skip_marker skip ++ s1 ++ "." ++ s2 ++ sep)
    with ("," ++ " " ++ skip_marker skip ++ s1 ++ String "." (s2 ++ sep)).
  rewrite decode_last_part.
  - change (parsePart ?s (" " ++ ?p)) with (parsePart s p).
    apply parsePart_style; try done.
    destruct Hsep as [? | (c & ? & ? & ? & _)]; eauto.
  - simpl. rewrite !str_forall_app. simpl. rewrite str_forall_app.
    rewrite (plain_no_comma _ Hp1), (plain_no_comma _ Hp2).
    destruct Hsep as [-> | (c & -> & _ & _ & Hc)]; simpl; [| rewrite Hc];
      by destruct skip.
Qed.

(** X9.  White space around a part is ignored, and a part of white space
    only is skipped. *)
Theorem white_space_around_part (s : NumberHeadingsPluginSettings) (l p r : string) :
  str_forall is_white_space l = true -> str_forall is_white_space r = true ->
  parsePart s (l ++ p ++ r) = parsePart s p /\ parsePart s l = s.
Proof.
  intros Hl Hr. unfold parsePart. rewrite trim_padded by done.
  split; [done |]. by rewrite trim_white_space.
Qed.

(** X10.  Decoding and encoding again gives one line: when the entry
    string and the string fields of the defaults hold no line feed, the
    encoded value of the decoded record holds none. *)
Theorem decoded_value_is_one_line (entryString : string) :
  str_forall (is_not newline) entryString = true ->
  string_fields (is_not newline) DEFAULT_SETTINGS ->
  str_forall (is_not newline)
    (settingsToCompactFrontMatterValue (parseCompactString entryString)) = true.
Proof.
  intros Hentry Hdefault.
  assert (string_fields (is_not newline) (parseCompactString entryString))
    as (Hc & H1 & H2 & Hs).
  { apply (fold_parts_invariant (string_fields (is_not newline))
             (fun p => str_forall (is_not newline) p = true)); [| | done].
    - intros s p. apply parsePart_string_fields.
    - by apply split_forall. }
  rewrite encoded_parts, !str_forall_app.
  rewrite !number_to_string_forall by done.
  cbn [str_forall]. rewrite str_forall_app, H1, H2, Hs.
  destruct (auto _), (String.eqb _ ""), (skipTopLevel _);
    rewrite ?str_forall_app, ?Hc; reflexivity.
Qed.

(** X11.  Encoding and decoding gives the record back: for a record of the
    decoder's shape ([decoded]: valid or default levels, valid styles,
    contents empty or valid without comma and trailing white space,
    separator empty or one valid character), front matter that holds the
    encoded value decodes to the record, whatever the alternative. *)
Theorem encode_then_decode (fm : FrontMatterCache)
    (r alternativeSettings : NumberHeadingsPluginSettings) :
  tokens_round_trip -> decoded r ->
  entries fm !! "number headings" = Some (VStr (settingsToCompactFrontMatterValue r)) ->
  getFrontMatterSettingsOrAlternative {| frontmatter := Some fm |} alternativeSettings = r.
Proof.
  intros HT Hr Hfm.
  unfold getFrontMatterSettingsOrAlternative, parseCompactFrontMatterSettings,
    parseFrontMatterEntry.
  cbn [frontmatter]. rewrite Hfm. cbn [truthy to_string].
  rewrite encoded_nonempty. cbn [negb]. by apply decode_encode.
Qed.

(** X12.  The encoder tells records of the decoder's shape apart: two such
    records with the same encoded value are equal. *)
Theorem encode_injective (r r' : NumberHeadingsPluginSettings) :
  tokens_round_trip -> decoded r -> decoded r' ->
  settingsToCompactFrontMatterValue r = settingsToCompactFrontMatterValue r' ->
  r = r'.
Proof.
  intros HT Hr Hr' E.
  rewrite <- (decode_encode r HT Hr), <- (decode_encode r' HT Hr'). by rewrite E.
Qed.

End CodecProperties.

(** ** Properties of the scan and of the splice *)

Section SpliceProperties.

Local Open Scope nat_scope.

(** Inserting one line of text at the start of line [k]. *)
Lemma insert_line (l text : string) (k : nat) :
  str_forall (is_not newline) l = true ->
  k < length (split newline text) ->
  split newline
    (substring_to (posToOffset text k 0) text
       ++ (l ++ String newline "")
       ++ substring_from (posToOffset text k 0) text)
  = (take k (split newline text) ++ l :: drop k (split newline text))%list.
Proof.
  intros Hl. revert k. induction text as [|x t IH]; intros k Hk.
  - simpl in Hk. assert (k = 0) as -> by lia. simpl.
    rewrite append_assoc. simpl. by rewrite split_app.
  - destruct k as [|k].
    + cbn [posToOffset substring_to substring_from take drop]. simpl app.
      change ("" ++ ?x) with x. rewrite append_assoc. simpl String.append.
      by rewrite split_app.
    + destruct (Ascii.eqb x newline) eqn:Hx.
      * apply Ascii.eqb_eq in Hx as ->.
        change (split newline (String newline t)) with ("" :: split newline t) in *.
        simpl. rewrite ?Ascii.eqb_refl. f_equal. apply IH. simpl in Hk. lia.
      * destruct (split_cons_other newline x t Hx) as (h & tl & Et & Ext).
        rewrite Ext in *. simpl in Hk. simpl posToOffset. rewrite Hx.
        simpl. rewrite Hx. rewrite IH by (rewrite Et; simpl; lia).
        by rewrite Et.
Qed.

Lemma key_line_one_line (settings : NumberHeadingsPluginSettings) :
  str_forall (is_not newline) (settingsToCompactFrontMatterValue settings) = true ->
  str_forall (is_not newline) (key_line settings) = true.
Proof. intros H. unfold key_line. rewrite str_forall_app. by rewrite H. Qed.

Lemma save_key_undefined (fm : FrontMatterCache)
    (settings : NumberHeadingsPluginSettings) (editor : Editor) :
  is_undefined (property fm "number headings") = true ->
  saveSettingsToFrontMatter {| frontmatter := Some fm |} settings editor
  = (Normal tt,
     replaceRange (key_line settings ++ String newline "")
       {| line := position_start_line fm + 1; ch := 0 |}
       {| line := position_start_line fm + 1; ch := 0 |} editor).
Proof.
  intros Hkey. unfold saveSettingsToFrontMatter. cbn [frontmatter]. cbv zeta.
  rewrite Hkey. cbn [negb]. unfold edit, key_line. by rewrite append_assoc.
Qed.

Lemma lines_inserted (l : string) (k : nat) (editor : Editor) :
  str_forall (is_not newline) l = true ->
  k < length (lines editor) ->
  lines (replaceRange (l ++ String newline "")
           {| line := k; ch := 0 |} {| line := k; ch := 0 |} editor)
  = (take k (lines editor) ++ l :: drop k (lines editor))%list.
Proof. intros Hl Hk. exact (insert_line l (getValue editor) k Hl Hk). Qed.

(** A save that finds its own line again leaves the document as it is. *)
Lemma resave_same_line (fm : FrontMatterCache)
    (settings : NumberHeadingsPluginSettings) (editor : Editor) (k : nat) :
  is_undefined (property fm "number headings") = false ->
  str_forall (is_not newline) (settingsToCompactFrontMatterValue settings) = true ->
  position_start_line fm <= k -> S k < length (lines editor) ->
  lines editor !! k = Some (key_line settings) ->
  (forall j, position_start_line fm <= j < k ->
             startsWith (getLine editor j) "number headings" = false) ->
  saveSettingsToFrontMatter {| frontmatter := Some fm |} settings editor
  = (Normal tt, editor).
Proof.
  intros Hkey Hvalue Hle Hk Hline Hbefore.
  assert (findLineWhichStartsWith editor "number headings" (position_start_line fm)
          = Some k) as Hscan.
  { unfold findLineWhichStartsWith. apply findLineLoop_Some.
    split; [unfold lastLine; lia |]. split; [|done].
    unfold getLine. by rewrite Hline. }
  rewrite save_key_defined, Hscan by done. f_equal. apply editor_lines_inj.
  fold (key_line settings).
  assert (lines (replaceRange (key_line settings ++ String newline "")
                   {| line := k; ch := 0 |} {| line := k + 1; ch := 0 |} editor)
          = <[k := key_line settings]> (lines editor)) as ->
    by exact (replace_line (key_line settings) (getValue editor) k
                (key_line_one_line settings Hvalue) Hk).
  by apply list_insert_id.
Qed.

(** X13.  The scan returns the first line that begins with the search
    text, among the lines from [afterLine] up to, but not including, the
    last line of the document. *)
Theorem scan_finds_first_line (editor : Editor) (search : string) (afterLine k : nat) :
  findLineWhichStartsWith editor search afterLine = Some k <->
  afterLine <= k < lastLine editor
  /\ startsWith (getLine editor k) search = true
  /\ forall j, afterLine <= j < k -> startsWith (getLine editor j) search = false.
Proof.
  unfold findLineWhichStartsWith. rewrite findLineLoop_Some.
  split; intros (Hk & Hs & Hb); (split; [lia | done]).
Qed.

(** X14.  When the front matter block lacks the key, the save never throws
    and inserts the key line right after the first line of the block: for
    a block that starts before the last line and a value without a line
    break, the new line is line [start + 1], the lines before it are as
    they were and the lines after it move down by one. *)
Theorem save_inserts_key_line (fm : FrontMatterCache)
    (settings : NumberHeadingsPluginSettings) (editor : Editor) :
  is_undefined (property fm "number headings") = true ->
  position_start_line fm < lastLine editor ->
  str_forall (is_not newline) (settingsToCompactFrontMatterValue settings) = true ->
  exists editor',
    saveSettingsToFrontMatter {| frontmatter := Some fm |} settings editor
    = (Normal tt, editor')
    /\ lines editor'
       = (take (position_start_line fm + 1) (lines editor)
            ++ key_line settings :: drop (position_start_line fm + 1) (lines editor))%list.
Proof.
  intros Hkey Hstart Hvalue. eexists. split; [by apply save_key_undefined |].
  apply lines_inserted; [by apply key_line_one_line | unfold lastLine in Hstart; lia].
Qed.

Lemma save_no_front_matter (settings : NumberHeadingsPluginSettings) (editor : Editor) :
  saveSettingsToFrontMatter {| frontmatter := None |} settings editor
  = (Normal tt,
     {| getValue :=
          "---" ++ String newline
            (key_line settings ++ String newline
               ("---" ++ String newline ("" ++ String newline (getValue editor)))) |}).
Proof.
  unfold saveSettingsToFrontMatter, edit, replaceRange, key_line.
  cbn [frontmatter getValue line ch]. cbv zeta.
  rewrite posToOffset_start. cbn [substring_to substring_from].
  f_equal. f_equal. rewrite !append_assoc. reflexivity.
Qed.

Lemma lines_created (settings : NumberHeadingsPluginSettings) (text : string) :
  str_forall (is_not newline) (settingsToCompactFrontMatterValue settings) = true ->
  split newline
    ("---" ++ String newline
       (key_line settings ++ String newline
          ("---" ++ String newline ("" ++ String newline text))))
  = "---" :: key_line settings :: "---" :: "" :: split newline text.
Proof.
  intros Hvalue.
  rewrite (split_app newline "---") by reflexivity.
  rewrite (split_app newline (key_line settings)) by (by apply key_line_one_line).
  rewrite (split_app newline "---") by reflexivity.
  by rewrite (split_app newline "") by reflexivity.
Qed.

(** X15.  Without front matter the save never throws and puts a block of
    its own before the document: for a value without a line break the new
    lines are the opening mark, the key line, the closing mark and an empty
    line, and the lines of the document follow unchanged. *)
Theorem save_creates_front_matter (settings : NumberHeadingsPluginSettings)
    (editor : Editor) :
  str_forall (is_not newline) (settingsToCompactFrontMatterValue settings) = true ->
  exists editor',
    saveSettingsToFrontMatter {| frontmatter := None |} settings editor
    = (Normal tt, editor')
    /\ lines editor'
       = "---" :: key_line settings :: "---" :: "" :: lines editor.
Proof.
  intros Hvalue. eexists. split; [apply save_no_front_matter |].
  by apply lines_created.
Qed.

(** X16.  Saving again after an insertion changes nothing: when the first
    save inserted the key line (the block lacked the key) and the metadata
    then defines the key for a block at the same start line, whose first
    line does not begin with [number headings], the second save finds the
    inserted line and leaves the document as the first save left it. *)
Theorem insert_then_save_again (fm fm' : FrontMatterCache)
    (settings : NumberHeadingsPluginSettings) (editor : Editor) :
  is_undefined (property fm "number headings") = true ->
  is_undefined (property fm' "number headings") = false ->
  position_start_line fm' = position_start_line fm ->
  position_start_line fm < lastLine editor ->
  startsWith (getLine editor (position_start_line fm)) "number headings" = false ->
  str_forall (is_not newline) (settingsToCompactFrontMatterValue settings) = true ->
  let editor' :=
    (saveSettingsToFrontMatter {| frontmatter := Some fm |} settings editor).2 in
  saveSettingsToFrontMatter {| frontmatter := Some fm' |} settings editor'
  = (Normal tt, editor').
Proof.
  intros Hkey Hkey' Hsame Hstart Hfirst Hvalue editor'.
  assert (position_start_line fm + 1 < length (lines editor)) as Hlen
    by (unfold lastLine in Hstart; lia).
  assert (lines editor'
          = (take (position_start_line fm + 1) (lines editor)
               ++ key_line settings :: drop (position_start_line fm + 1) (lines editor))%list)
    as Hlines.
  { subst editor'. rewrite save_key_undefined by done.
    apply lines_inserted; [by apply key_line_one_line | done]. }
  assert (length (take (position_start_line fm + 1) (lines editor))
          = position_start_line fm + 1) as Htake by (rewrite length_take_le; lia).
  apply (resave_same_line fm' settings editor' (position_start_line fm + 1)); try done.
  - lia.
  - rewrite Hlines, length_app, Htake. simpl. rewrite length_drop. lia.
  - rewrite Hlines. apply list_lookup_middle. by rewrite Htake.
  - intros j Hj. assert (j = position_start_line fm) as -> by lia.
    unfold getLine in *. rewrite Hlines, lookup_app_l by lia.
    by rewrite lookup_take_lt by lia.
Qed.

(** X17.  Saving again after the creation of the block changes nothing:
    when the first save created the front matter and the metadata then
    defines the key for a block that starts at line 0, the second save
    finds the key line and leaves the document as the first save left
    it. *)
Theorem create_then_save_again (fm' : FrontMatterCache)
    (settings : NumberHeadingsPluginSettings) (editor : Editor) :
  is_undefined (property fm' "number headings") = false ->
  position_start_line fm' = 0 ->
  str_forall (is_not newline) (settingsToCompactFrontMatterValue settings) = true ->
  let editor' :=
    (saveSettingsToFrontMatter {| frontmatter := None |} settings editor).2 in
  saveSettingsToFrontMatter {| frontmatter := Some fm' |} settings editor'
  = (Normal tt, editor').
Proof.
  intros Hkey' Hstart Hvalue editor'.
  assert (lines editor' = "---" :: key_line settings :: "---" :: "" :: lines editor)
    as Hlines.
  { subst editor'. rewrite save_no_front_matter. by apply lines_created. }
  apply (resave_same_line fm' settings editor' 1); try done.
  - lia.
  - rewrite Hlines. simpl. lia.
  - by rewrite Hlines.
  - intros j Hj. assert (j = 0) as -> by lia.
    unfold getLine. by rewrite Hlines.
Qed.

(** X18.  The save throws in one case only.  Whatever the metadata, the
    settings and the document, it either returns normally or throws the
    key-not-found error with the document unchanged; and it throws exactly
    when the metadata defines the key and the scan from the start line of
    the block finds no line that begins with it. *)
Theorem save_throws_only_without_key_line (md : CachedMetadata)
    (settings : NumberHeadingsPluginSettings) (editor : Editor) :
  let out := saveSettingsToFrontMatter md settings editor in
  (out.1 = Normal tt \/ out = (Throw key_not_found_message, editor))
  /\ (out.1 = Throw key_not_found_message <->
      exists fm,
        frontmatter md = Some fm
        /\ is_undefined (property fm "number headings") = false
        /\ findLineWhichStartsWith editor "number headings" (position_start_line fm)
           = None).
Proof.
  cbv zeta. destruct md as [[fm |]].
  - destruct (is_undefined (property fm "number headings")) eqn:Hkey.
    + rewrite save_key_undefined by done. cbn [fst frontmatter].
      split; [by left |]. split; [done |]. by intros (fm0 & [= <-] & Hk & _); congruence.
    + rewrite save_key_defined by done. cbn [frontmatter].
      destruct (findLineWhichStartsWith editor "number headings" (position_start_line fm))
        eqn:Hscan; cbn [fst].
      * split; [by left |]. split; [done |].
        intros (fm0 & [= <-] & _ & Hs). congruence.
      * split; [by right |]. split; [|done]. intros _. by exists fm.
  - rewrite save_no_front_matter. cbn [fst frontmatter].
    split; [by left |]. split; [done |]. by intros (fm0 & [=] & _).
Qed.

End SpliceProperties.

(** ** Properties of the legacy path *)

Section LegacyProperties.

Context `{ST : SettingsTypes}.

(** X19.  With front matter present, [firstLevel], [contents] and
    [separator] of the alternative settings never reach the result: the
    compact decoder does not look at the alternative, and the legacy path
    takes these three fields from the defaults. *)
Theorem alternative_fields_never_read (fm : FrontMatterCache)
    (alternativeSettings : NumberHeadingsPluginSettings)
    (n : number) (c sep : string) :
  getFrontMatterSettingsOrAlternative {| frontmatter := Some fm |}
    (with_firstLevel n (with_contents c (with_separator sep alternativeSettings)))
  = getFrontMatterSettingsOrAlternative {| frontmatter := Some fm |} alternativeSettings.
Proof.
  unfold getFrontMatterSettingsOrAlternative. cbn [frontmatter].
  destruct (parseCompactFrontMatterSettings fm); reflexivity.
Qed.

(** X20.  The result can stand in for the alternative: reading the
    settings again with the first result as alternative settings gives the
    first result. *)
Theorem result_as_alternative (md : CachedMetadata)
    (alternativeSettings : NumberHeadingsPluginSettings) :
  getFrontMatterSettingsOrAlternative md
    (getFrontMatterSettingsOrAlternative md alternativeSettings)
  = getFrontMatterSettingsOrAlternative md alternativeSettings.
Proof.
  unfold getFrontMatterSettingsOrAlternative.
  destruct (frontmatter md) as [fm |]; [|done].
  destruct (parseCompactFrontMatterSettings fm); [done |].
  unfold legacyFrontMatterSettings. cbv zeta.
  repeat match goal with
    | |- context [if ?b then _ else _] => destruct b eqn:?
    end; reflexivity.
Qed.

End LegacyProperties.

(** * The further properties on concrete inputs *)

#[local] Existing Instance Sample.settings_types.

Local Open Scope nat_scope.

(** The example record has the shape of a decoded record. *)
Lemma sample_example_decoded : decoded example_record.
Proof.
  split; simpl.
  - by left.
  - by right.
  - by right.
  - right. by vm_compute.
  - reflexivity.
  - reflexivity.
  - right. exists "-"%char. by vm_compute.
Qed.

Lemma decoded_fields_default_or_valid_witness : default_or_valid example_record.
Proof.
  apply (decoded_fields_default_or_valid
           (front_matter_of "number headings" (VStr example_string)) example_record).
  vm_compute. reflexivity.
Defined.

Lemma decoded_record_by_kind_witness :
  parseCompactString "max 3, auto,, 1.A-" = parseCompactString " auto, 1.A-,max 3".
Proof.
  apply (decoded_record_by_kind "max 3, auto,, 1.A-" " auto, 1.A-,max 3").
  intros k Hk. destruct k; [done | reflexivity ..].
Defined.

Lemma later_level_token_overrides_witness :
  parseCompactString ("max 2, first-level 5" ++ ", first-level " ++ number_to_string (Num 3))
  = with_firstLevel (Num 3) (parseCompactString "max 2, first-level 5")
  /\ parseCompactString ("max 2, first-level 5" ++ ", max " ++ number_to_string (Num 3))
     = with_maxLevel (Num 3) (parseCompactString "max 2, first-level 5").
Proof.
  apply (later_level_token_overrides "max 2, first-level 5" (Num 3)). reflexivity.
Defined.

Lemma later_contents_token_overrides_witness :
  parseCompactString ("auto, contents Old" ++ ", contents " ++ "Index")
  = with_contents "Index" (parseCompactString "auto, contents Old").
Proof.
  apply (later_contents_token_overrides "auto, contents Old" "Index");
    [discriminate | reflexivity | reflexivity | reflexivity].
Defined.

Lemma later_formatting_token_witness :
  parseCompactString ("1.A-" ++ ", " ++ skip_marker true ++ "A" ++ "." ++ "1" ++ "")
  = with_styleLevelOther "1"
      (with_styleLevel1 "A" (with_skipTopLevel true (parseCompactString "1.A-")))
  /\ separator (parseCompactString "1.A-, _.A.1") = "-".
Proof.
  split; [| reflexivity].
  apply (later_formatting_token "1.A-" true "A" "1" "");
    [reflexivity | reflexivity | reflexivity | reflexivity | left; reflexivity].
Defined.

Lemma white_space_around_part_witness :
  parsePart DEFAULT_SETTINGS ("  " ++ "max 3" ++ " ") = parsePart DEFAULT_SETTINGS "max 3"
  /\ parsePart DEFAULT_SETTINGS "  " = DEFAULT_SETTINGS.
Proof.
  apply (white_space_around_part DEFAULT_SETTINGS "  " "max 3" " "); reflexivity.
Defined.

Lemma decoded_value_is_one_line_witness :
  str_forall (is_not newline)
    (settingsToCompactFrontMatterValue (parseCompactString example_string)) = true.
Proof.
  apply (decoded_value_is_one_line example_string); [reflexivity |].
  split; [reflexivity |]. split; [reflexivity |]. split; reflexivity.
Defined.

Lemma encode_then_decode_witness :
  getFrontMatterSettingsOrAlternative
    {| frontmatter :=
         Some (front_matter_of "number headings"
                 (VStr (settingsToCompactFrontMatterValue example_record))) |}
    DEFAULT_SETTINGS
  = example_record.
Proof.
  apply (encode_then_decode
           (front_matter_of "number headings"
              (VStr (settingsToCompactFrontMatterValue example_record)))
           example_record DEFAULT_SETTINGS).
  - exact sample_tokens_round_trip.
  - exact sample_example_decoded.
  - vm_compute. reflexivity.
Defined.

Lemma encode_injective_witness :
  with_auto true (with_separator "-" (with_contents "Table of Contents"
    (with_styleLevelOther "A" (with_maxLevel (Num 4) (with_firstLevel (Num 2)
      (with_skipTopLevel true DEFAULT_SETTINGS))))))
  = example_record.
Proof.
  apply encode_injective.
  - exact sample_tokens_round_trip.
  - exact sample_example_decoded.
  - exact sample_example_decoded.
  - reflexivity.
Defined.

Lemma save_inserts_key_line_witness :
  exists editor',
    saveSettingsToFrontMatter
      {| frontmatter := Some (front_matter_of "title" (VStr "x")) |} example_record
      (editor_of_lines ["---"; "title: x"; "---"; "body"])
    = (Normal tt, editor')
    /\ lines editor'
       = ["---"; "number headings: " ++ example_string; "title: x"; "---"; "body"].
Proof.
  destruct (save_inserts_key_line (front_matter_of "title" (VStr "x")) example_record
              (editor_of_lines ["---"; "title: x"; "---"; "body"]))
    as (editor' & Hsave & Hlines).
  - vm_compute. reflexivity.
  - vm_compute. lia.
  - vm_compute. reflexivity.
  - exists editor'. split; [exact Hsave |]. rewrite Hlines. vm_compute. reflexivity.
Defined.

Lemma save_creates_front_matter_witness :
  exists editor',
    saveSettingsToFrontMatter {| frontmatter := None |} example_record
      (editor_of_lines ["# Title"; "body"])
    = (Normal tt, editor')
    /\ lines editor'
       = ["---"; "number headings: " ++ example_string; "---"; ""; "# Title"; "body"].
Proof.
  destruct (save_creates_front_matter example_record (editor_of_lines ["# Title"; "body"]))
    as (editor' & Hsave & Hlines).
  - vm_compute. reflexivity.
  - exists editor'. split; [exact Hsave |]. rewrite Hlines. vm_compute. reflexivity.
Defined.

Lemma insert_then_save_again_witness :
  let editor' :=
    (saveSettingsToFrontMatter
       {| frontmatter := Some (front_matter_of "title" (VStr "x")) |} example_record
       (editor_of_lines ["---"; "title: x"; "---"; "body"])).2 in
  lines editor' = ["---"; "number headings: " ++ example_string; "title: x"; "---"; "body"]
  /\ saveSettingsToFrontMatter {| frontmatter := Some key_front_matter |} example_record
       editor'
     = (Normal tt, editor').
Proof.
  cbv zeta. split; [vm_compute; reflexivity |].
  apply (insert_then_save_again (front_matter_of "title" (VStr "x")) key_front_matter
           example_record (editor_of_lines ["---"; "title: x"; "---"; "body"])).
  - vm_compute. reflexivity.
  - vm_compute. reflexivity.
  - reflexivity.
  - vm_compute. lia.
  - vm_compute. reflexivity.
  - vm_compute. reflexivity.
Defined.

Lemma create_then_save_again_witness :
  let editor' :=
    (saveSettingsToFrontMatter {| frontmatter := None |} example_record
       (editor_of_lines ["# Title"; "body"])).2 in
  saveSettingsToFrontMatter {| frontmatter := Some key_front_matter |} example_record
    editor'
  = (Normal tt, editor').
Proof.
  cbv zeta.
  apply (create_then_save_again key_front_matter example_record
           (editor_of_lines ["# Title"; "body"])).
  - vm_compute. reflexivity.
  - reflexivity.
  - vm_compute. reflexivity.
Defined.
